(** * The alert pipeline of the monitoring dashboard (app.py)

    A shallow embedding of the decision logic of [app.py]: the detection
    adapter [detect_events], the cooldown gate and its side effects
    [trigger_alert], the two notification channels [send_email] and
    [send_sms], the frame loop [run_camera] and the registration handler
    [register_page].

    Conventions of the embedding.
    - Clock readings ([time.time()]) and confidences are finite floating
      point numbers in the program; they are embedded as the rationals they
      denote, on which comparison is exact.
    - The process-wide state ([st.session_state], the sqlite tables, the
      files on disk, the capture handle) and everything the program shows,
      prints or sends is gathered in one record, [world].
    - Code that may raise runs in a state-and-exception monad [M]; a raise
      keeps the state reached so far, as in Python.
    - What the program cannot decide itself (the clock, the outcome of a
      network call, the pretrained detectors) is given to the functions as
      an explicit argument. *)

From Stdlib Require Import QArith Lqa Qround.
From stdpp Require Import gmap strings list pretty.

(** ** Data *)

(** A video frame: the raw picture bytes. *)
Definition frame := list Byte.byte.

(** One detected box: [float(box.conf[0])] and [int(box.cls[0])]. *)
Record box := Box { box_conf : Q; box_cls : Z }.

(** [results[0]] of one detector call: the boxes and what [plot()] draws. *)
Record Results := { boxes : list box; plot : frame }.

(** A row of table [users]. *)
Record user_row := {
  u_id : Z; u_name : string; u_email : string; u_phone : string;
  u_gender : string; u_username : string; u_password : string;
  u_role : string; u_status : string }.

(** A row of table [alerts]. *)
Record alert_row := {
  a_id : Z; a_username : string; a_alert_type : string;
  a_time : string; a_image_path : string }.

(** What leaves the process: widgets, console, network. *)
Inductive event :=
| UiImage (picture : frame)
| UiError (text : string)
| UiSuccess (text : string)
| Print (line : string)
| SmtpOpen (host : string) (port : Z)
| SmtpSendmail (sender rcpt subject body : string) (attachment : option frame)
| HttpPost (url authorization message route numbers : string).

(** Python exceptions: instances of [Exception], and streamlit's rerun
    request, which derives from [BaseException] only. *)
Inductive exn :=
| PyException (what : string)
| RerunException.

Inductive result (A : Type) :=
| Ok (a : A)
| Raised (e : exn).
Arguments Ok {A} a.
Arguments Raised {A} e.

Record world := World {
  users : list user_row;
  users_seq : Z;
  alerts : list alert_row;
  alerts_seq : Z;
  files : gmap string frame;
  username : string;
  last_alert_time : Q;
  page : string;
  cap_held : bool;
  trace : list event }.

(** What one call of [trigger_alert] reads from its surroundings. *)
Record env := {
  clock_now : Q;              (* time.time() at the top of trigger_alert *)
  wall_clock : string;        (* datetime.now().strftime("%Y-%m-%d %H:%M:%S") *)
  clock_snap : Q;             (* time.time() in the snapshot name *)
  smtp_fault : option string; (* Some e: the SMTP session raises e *)
  http_fault : option string  (* Some e: requests.post raises e *) }.

(** Configuration read from the process environment. *)
Record config := {
  SENDER_EMAIL : string; SENDER_PASSWORD : string; FAST2SMS_API_KEY : string }.

(** The two pretrained detectors, called as [model(frame, conf=conf)]. *)
Record detectors := {
  model : frame -> Q -> result Results;
  fire_model : frame -> Q -> result Results }.

(** Iteration order of a Python set of strings, as a function of the list
    the set was built from: some enumeration of the distinct elements. *)
Record set_order := {
  list_of_set : list string -> list string;
  list_of_set_perm :
    forall l, list_of_set l ≡ₚ elements (list_to_set l : gset string) }.

Definition ALERT_COOLDOWN : Q := 20.

(** ** The monad *)

Definition M (A : Type) : Type := world -> result A * world.

Definition ret {A} (a : A) : M A := fun w => (Ok a, w).

Definition bind {A B} (m : M A) (k : A -> M B) : M B :=
  fun w => match m w with
           | (Ok a, w') => k a w'
           | (Raised e, w') => (Raised e, w')
           end.

Definition raise {A} (e : exn) : M A := fun w => (Raised e, w).

Definition get : M world := fun w => (Ok w, w).

Definition modify (f : world -> world) : M unit := fun w => (Ok tt, f w).

Definition lift {A} (r : result A) : M A := fun w => (r, w).

(** [try: body except Exception as e: handler e] lets through what is not
    an instance of [Exception]. *)
Definition try_except_Exception {A} (body : M A) (handler : string -> M A) : M A :=
  fun w => match body w with
           | (Raised (PyException what), w') => handler what w'
           | r => r
           end.

(** [try: body except: handler] catches whatever is raised. *)
Definition try_except {A} (body : M A) (handler : M A) : M A :=
  fun w => match body w with
           | (Raised _, w') => handler w'
           | r => r
           end.

Declare Scope py_scope.
Delimit Scope py_scope with py.
Notation "x <~ c ;; k" := (bind c (fun x => k))
  (at level 100, c at next level, right associativity) : py_scope.
Notation "c ;;; k" := (bind c (fun _ => k))
  (at level 100, right associativity) : py_scope.
#[local] Open Scope py_scope.

(** ** State updates *)

Definition emit (ev : event) (w : world) : world :=
  World (users w) (users_seq w) (alerts w) (alerts_seq w) (files w)
        (username w) (last_alert_time w) (page w) (cap_held w)
        (trace w ++ [ev]).

Definition set_last_alert_time (t : Q) (w : world) : world :=
  World (users w) (users_seq w) (alerts w) (alerts_seq w) (files w)
        (username w) t (page w) (cap_held w) (trace w).

Definition set_page (p : string) (w : world) : world :=
  World (users w) (users_seq w) (alerts w) (alerts_seq w) (files w)
        (username w) (last_alert_time w) p (cap_held w) (trace w).

Definition set_cap_held (b : bool) (w : world) : world :=
  World (users w) (users_seq w) (alerts w) (alerts_seq w) (files w)
        (username w) (last_alert_time w) (page w) b (trace w).

(** [cv2.imwrite(path, frame)] *)
Definition imwrite (path : string) (fr : frame) (w : world) : world :=
  World (users w) (users_seq w) (alerts w) (alerts_seq w)
        (<[path := fr]> (files w))
        (username w) (last_alert_time w) (page w) (cap_held w) (trace w).

(** [INSERT INTO alerts VALUES(NULL,?,?,?,?)] and the commit. *)
Definition insert_alert (user text ts img : string) (w : world) : world :=
  let id := (alerts_seq w + 1)%Z in
  World (users w) (users_seq w)
        (alerts w ++ [{| a_id := id; a_username := user; a_alert_type := text;
                         a_time := ts; a_image_path := img |}])
        id (files w)
        (username w) (last_alert_time w) (page w) (cap_held w) (trace w).

Definition has_username (u : string) (r : user_row) : bool :=
  bool_decide (u_username r = u).

(** [INSERT INTO users (name,email,phone,gender,username,password)] and the
    commit: column [username] is UNIQUE, the other columns take their
    defaults. *)
Definition insert_user (name email phone gender user digest : string) : M unit :=
  fun w =>
    if existsb (has_username user) (users w) then
      (Raised (PyException "UNIQUE constraint failed: users.username"), w)
    else
      let id := (users_seq w + 1)%Z in
      (Ok tt,
       World (users w ++ [{| u_id := id; u_name := name; u_email := email;
                             u_phone := phone; u_gender := gender;
                             u_username := user; u_password := digest;
                             u_role := "user"; u_status := "active" |}])
             id (alerts w) (alerts_seq w) (files w)
             (username w) (last_alert_time w) (page w) (cap_held w) (trace w)).

(** [SELECT ... FROM users WHERE username=?] followed by [fetchone()]. *)
Definition select_user (u : string) (w : world) : option user_row :=
  find (has_username u) (users w).

(** ** Small library functions *)

(** [sep.join(l)] *)
Fixpoint join (sep : string) (l : list string) : string :=
  match l with
  | [] => ""
  | x :: xs =>
      match xs with
      | [] => x
      | _ :: _ => x +:+ sep +:+ join sep xs
      end
  end.

(** [int(x)] on a float: truncation towards zero. *)
Definition int_of_float (x : Q) : Z := Z.quot (Qnum x) (Zpos (Qden x)).

(** [x < y] on finite floats. *)
Definition Qlt_bool (x y : Q) : bool := negb (Qle_bool y x).

(** ** Detection adapter *)

Definition person_step (conf : Q) (acc : list string) (b : box) : list string :=
  if Qle_bool conf (box_conf b) then
    let cls := box_cls b in
    if (cls =? 0)%Z then acc ++ ["Person Detected"] else acc
  else acc.

Definition fire_step (conf : Q) (acc : list string) (b : box) : list string :=
  if Qle_bool conf (box_conf b) then acc ++ ["Fire Detected"] else acc.

(** The list [alerts] of [detect_events] just before its [return]. *)
Definition collected (results fire_results : Results) (conf : Q) : list string :=
  let alerts := [] in
  let alerts := fold_left (person_step conf) (boxes results) alerts in
  let alerts := fold_left (fire_step conf) (boxes fire_results) alerts in
  alerts.

Definition detect_events (o : set_order)
    (results fire_results : Results) (conf : Q) : list string :=
  list_of_set o (collected results fire_results conf).

(** ** Notification channels *)

Definition send_email (cfg : config) (e : env)
    (subject message : string) (image_path : option string) : M unit :=
  try_except_Exception
    (w <~ get ;;
     match select_user (username w) w with
     | None => ret tt
     | Some row =>
         let rcpt := u_email row in
         let attachment :=
           match image_path with
           | Some p => if bool_decide (p = "") then None else files w !! p
           | None => None
           end in
         modify (emit (SmtpOpen "smtp.gmail.com" 587)) ;;;
         match smtp_fault e with
         | Some what => raise (PyException what)
         | None =>
             modify (emit (SmtpSendmail (SENDER_EMAIL cfg) rcpt subject
                                        message attachment))
         end
     end)
    (fun what => modify (emit (Print ("Email error: " +:+ what)))).

Definition send_sms (cfg : config) (e : env) (message : string) : M unit :=
  try_except_Exception
    (w <~ get ;;
     match select_user (username w) w with
     | None => ret tt
     | Some row =>
         let url := "https://www.fast2sms.com/dev/bulkV2" in
         modify (emit (HttpPost url (FAST2SMS_API_KEY cfg) message "v3"
                                (u_phone row))) ;;;
         match http_fault e with
         | Some what => raise (PyException what)
         | None => ret tt
         end
     end)
    (fun what => modify (emit (Print ("SMS error: " +:+ what)))).

(** ** Alert gate *)

Definition trigger_alert (cfg : config) (e : env)
    (text : string) (fr : frame) : M unit :=
  let now := clock_now e in
  w <~ get ;;
  if Qlt_bool (now - last_alert_time w) ALERT_COOLDOWN then ret tt
  else
    let ts := wall_clock e in
    let img := "alert_" +:+ pretty (int_of_float (clock_snap e)) +:+ ".jpg" in
    modify (imwrite img fr) ;;;
    modify (fun w => insert_alert (username w) text ts img w) ;;;
    send_email cfg e "Smart Alert" text (Some img) ;;;
    send_sms cfg e text ;;;
    modify (set_last_alert_time now).

(** ** Frame loop *)

(** A video source: whether [cv2.VideoCapture(src)] opens, and the frames it
    delivers before [read()] reports [ret = False], each with what
    [trigger_alert] would read while that frame is processed. The loop runs
    as long as frames come, so it is a recursion on this list. *)
Record source := { src_opens : bool; src_frames : list (frame * env) }.

Definition frame_body (cfg : config) (d : detectors) (o : set_order)
    (conf : Q) (fr : frame) (e : env) : M unit :=
  results <~ lift (model d fr conf) ;;
  fire_results <~ lift (fire_model d fr conf) ;;
  let annotated := plot results in
  let alerts := detect_events o results fire_results conf in
  modify (emit (UiImage annotated)) ;;;
  match alerts with
  | _ :: _ =>
      let text := join " | " alerts in
      modify (emit (UiError text)) ;;;
      trigger_alert cfg e text fr
  | [] => modify (emit (UiSuccess "No threats detected"))
  end.

Fixpoint frame_loop (cfg : config) (d : detectors) (o : set_order)
    (conf : Q) (pending : list (frame * env)) : M unit :=
  match pending with
  | [] => ret tt
  | (fr, e) :: rest =>
      frame_body cfg d o conf fr e ;;;
      frame_loop cfg d o conf rest
  end.

Definition run_camera (cfg : config) (d : detectors) (o : set_order)
    (src : source) (conf : Q) : M unit :=
  modify (set_cap_held (src_opens src)) ;;;
  (if src_opens src then frame_loop cfg d o conf (src_frames src) else ret tt) ;;;
  modify (set_cap_held false).

(** ** Registration *)

(** The body under [if st.button("Submit")]; [hash_password] is the SHA-256
    hex digest. [st.rerun()] ends the script run by raising the rerun
    request, and it is called inside the [try]: the bare [except] catches it
    like any other exception. *)
Definition register_page (hash_password : string -> string)
    (name email phone gender user password : string) : M unit :=
  try_except
    (insert_user name email phone gender user (hash_password password) ;;;
     modify (emit (UiSuccess "Registered Successfully")) ;;;
     modify (set_page "login") ;;;
     raise RerunException)
    (modify (emit (UiError "Username already exists"))).

(** ** Vocabulary of the statements *)

Definition outcome {A} (m : M A) (w : world) : result A := fst (m w).
Definition exec {A} (m : M A) (w : world) : world := snd (m w).

(** The world with further events on its trace and nothing else changed. *)
Definition emits (evs : list event) (w : world) : world :=
  World (users w) (users_seq w) (alerts w) (alerts_seq w) (files w)
        (username w) (last_alert_time w) (page w) (cap_held w)
        (trace w ++ evs).

(** Name of the snapshot written by [trigger_alert]. *)
Definition snapshot_name (e : env) : string :=
  "alert_" +:+ pretty (int_of_float (clock_snap e)) +:+ ".jpg".

(** The row [trigger_alert] appends to table [alerts]. *)
Definition alert_record (e : env) (text : string) (w : world) : alert_row :=
  {| a_id := (alerts_seq w + 1)%Z; a_username := username w;
     a_alert_type := text; a_time := wall_clock e;
     a_image_path := snapshot_name e |}.

(** The gate lets an attempt through when the call appends a row. *)
Definition lets_through (cfg : config) (e : env) (text : string) (fr : frame)
    (w : world) : Prop :=
  exists row, alerts (exec (trigger_alert cfg e text fr) w) = alerts w ++ [row].

(** The two attempts a notification makes on the network. *)
Definition email_attempt : event := SmtpOpen "smtp.gmail.com" 587.

Definition sms_attempt (cfg : config) (message : string) (row : user_row) : event :=
  HttpPost "https://www.fast2sms.com/dev/bulkV2" (FAST2SMS_API_KEY cfg)
           message "v3" (u_phone row).

(** The labels of a composite message: [text.split(sep)]. *)
Fixpoint split_go (sep : string) (skip : nat) (cur : string) (s : string)
    : list string :=
  match s with
  | EmptyString => [cur]
  | String c s' =>
      match skip with
      | S k => split_go sep k cur s'
      | O =>
          if String.prefix sep s
          then cur :: split_go sep (String.length sep - 1) "" s'
          else split_go sep 0 (cur +:+ String c "") s'
      end
  end.

Definition split (sep s : string) : list string := split_go sep 0 "" s.

(** [needle in text] *)
Definition contains (text needle : string) : Prop :=
  exists before after, text = before +:+ needle +:+ after.

(** Number of rows of table [users] with a given username. *)
Definition rows_named (u : string) (w : world) : nat :=
  length (filter (fun r => u_username r = u) (users w)).

(** What [send_email] puts on the trace. *)
Definition email_events (cfg : config) (e : env) (subject message : string)
    (image_path : option string) (w : world) : list event :=
  match select_user (username w) w with
  | None => []
  | Some row =>
      email_attempt ::
      match smtp_fault e with
      | Some what => [Print ("Email error: " +:+ what)]
      | None =>
          [SmtpSendmail (SENDER_EMAIL cfg) (u_email row) subject message
             match image_path with
             | Some p => if bool_decide (p = "") then None else files w !! p
             | None => None
             end]
      end
  end.

(** What [send_sms] puts on the trace. *)
Definition sms_events (cfg : config) (e : env) (message : string) (w : world)
    : list event :=
  match select_user (username w) w with
  | None => []
  | Some row =>
      sms_attempt cfg message row ::
      match http_fault e with
      | Some what => [Print ("SMS error: " +:+ what)]
      | None => []
      end
  end.

(** The boxes that count, as the two loops of [detect_events] test them. *)
Definition person_hit (conf : Q) (b : box) : bool :=
  Qle_bool conf (box_conf b) && (box_cls b =? 0)%Z.

Definition fire_hit (conf : Q) (b : box) : bool :=
  Qle_bool conf (box_conf b).

(** A computation that leaves the capture handle as it found it. *)
Definition keeps_cap {A} (m : M A) : Prop :=
  forall w, cap_held (exec m w) = cap_held w.

(** ** Concrete inputs used by the examples *)

(** Two iteration orders: the one of [elements], and its reverse. *)
Definition elements_order : set_order :=
  {| list_of_set := fun l => elements (list_to_set l : gset string);
     list_of_set_perm := fun l => reflexivity _ |}.

Definition reverse_order : set_order :=
  {| list_of_set := fun l => reverse (elements (list_to_set l : gset string));
     list_of_set_perm := fun l => reverse_Permutation _ |}.

Definition cfg0 : config :=
  {| SENDER_EMAIL := "monitor@example.org"; SENDER_PASSWORD := "app-token";
     FAST2SMS_API_KEY := "key" |}.

Definition alice : user_row :=
  {| u_id := 1; u_name := "Alice"; u_email := "alice@example.org";
     u_phone := "5550100"; u_gender := "Female"; u_username := "alice";
     u_password := "digest"; u_role := "user"; u_status := "active" |}.

(** A fresh session of user alice: no alert yet, [last_alert_time = 0]. *)
Definition w0 : world :=
  {| users := [alice]; users_seq := 1; alerts := []; alerts_seq := 0;
     files := ∅; username := "alice"; last_alert_time := 0;
     page := "dashboard"; cap_held := false; trace := [] |}.

(** A clock reading [t] with both channels in the given condition. *)
Definition env_at (t : Q) (smtp http : option string) : env :=
  {| clock_now := t; wall_clock := "2023-11-14 22:13:20"; clock_snap := t;
     smtp_fault := smtp; http_fault := http |}.

(** The clock of the examples, and what [trigger_alert] reads at the first
    attempt, 5 seconds later and 21 seconds later. *)
Definition t0 : Q := 1700000000.

Definition env_first : env := env_at t0 None None.
Definition env_soon : env := env_at (t0 + 5) None None.
Definition env_later : env := env_at (t0 + 21) None None.

(** Both channels down. *)
Definition env_faulty : env :=
  env_at t0 (Some "connection refused") (Some "timed out").

(** A clock between two seconds. *)
Definition env_frac : env := env_at (17000000007 # 10) None None.

Definition no_boxes : Results := {| boxes := []; plot := [] |}.

Definition two_persons : Results :=
  {| boxes := [Box (9 # 10) 0; Box (7 # 10) 0]; plot := [] |}.

Definition one_person : Results :=
  {| boxes := [Box (9 # 10) 0]; plot := [] |}.

Definition one_fire : Results :=
  {| boxes := [Box (8 # 10) 0]; plot := [] |}.

(** Detectors that see nothing, and detectors whose general model fails. *)
Definition quiet_detectors : detectors :=
  {| model := fun _ _ => Ok no_boxes; fire_model := fun _ _ => Ok no_boxes |}.

Definition failing_detectors : detectors :=
  {| model := fun _ _ => Raised (PyException "inference failed");
     fire_model := fun _ _ => Ok no_boxes |}.

Definition busy_detectors : detectors :=
  {| model := fun _ _ => Ok one_person; fire_model := fun _ _ => Ok one_fire |}.

(** Sources that open and deliver one and two frames. *)
Definition one_frame : source :=
  {| src_opens := true; src_frames := [([], env_first)] |}.

Definition two_frames : source :=
  {| src_opens := true; src_frames := [([], env_first); ([], env_soon)] |}.

(** The session of alice after a first alert at [t0]. *)
Definition w_first : world :=
  exec (trigger_alert cfg0 env_first "Fire Detected" []) w0.

(** Three frames one second and 25 seconds apart; the fire model reports a
    fire on the non-empty ones. *)
Definition fire_on_nonempty : detectors :=
  {| model := fun _ _ => Ok no_boxes;
     fire_model := fun fr _ =>
       match fr with [] => Ok no_boxes | _ :: _ => Ok one_fire end |}.

Definition three_frames : source :=
  {| src_opens := true;
     src_frames := [([Byte.x01], env_first);
                    ([Byte.x02], env_at (t0 + 1) None None);
                    ([], env_at (t0 + 25) None None)] |}.

(** A database without users, and a stand-in for the SHA-256 digest. *)
Definition w_nobody : world :=
  {| users := []; users_seq := 0; alerts := []; alerts_seq := 0;
     files := ∅; username := ""; last_alert_time := 0;
     page := "register"; cap_held := false; trace := [] |}.

Definition toy_digest (p : string) : string := "digest:" +:+ p.

(** ** Login, dashboard and router *)

Definition set_username (u : string) (w : world) : world :=
  World (users w) (users_seq w) (alerts w) (alerts_seq w) (files w)
        u (last_alert_time w) (page w) (cap_held w) (trace w).

(** [with open(path, "wb") as f: f.write(data)] *)
Definition write_file (path : string) (data : list Byte.byte) (w : world)
    : world :=
  World (users w) (users_seq w) (alerts w) (alerts_seq w)
        (<[path := data]> (files w))
        (username w) (last_alert_time w) (page w) (cap_held w) (trace w).

(** [check_login(u, p)]: the first row of
    [SELECT * FROM users WHERE username=? AND password=?], the password
    compared by its digest. *)
Definition check_login (hash_password : string -> string) (u p : string)
    (w : world) : option user_row :=
  find (fun r => bool_decide (u_username r = u)
                 && bool_decide (u_password r = hash_password p))
       (users w).

(** The session state: the fields gathered in [world] and
    [st.session_state.logged_in]. *)
Record session := Session { state : world; logged_in : bool }.

(** One script run is started by one interaction: a button of the page
    shown, with the values of its input widgets, or none. *)
Inductive click :=
| Idle
| Login (u p : string)
| GoRegister
| Submit (name email phone gender user password : string)
| Logout
| Start (src : source) (conf : Q)
| Upload (data : list Byte.byte) (clock : Q) (play : option source) (conf : Q).

(** [login_page()]: [st.rerun()] is called outside any [try] and ends the
    run. Titles and input widgets leave no trace. *)
Definition login_page (hash_password : string -> string) (c : click)
    (s : session) : result unit * session :=
  match c with
  | Login u p =>
      match check_login hash_password u p (state s) with
      | Some user =>
          (Raised RerunException,
           Session (set_page "dashboard"
                      (set_username (u_username user) (state s))) true)
      | None =>
          (Ok tt,
           Session (emit (UiError "Invalid credentials") (state s))
                   (logged_in s))
      end
  | GoRegister =>
      (Raised RerunException,
       Session (set_page "register" (state s)) (logged_in s))
  | _ => (Ok tt, s)
  end.

(** [register_page()] with its button. *)
Definition register_view (hash_password : string -> string) (c : click)
    (s : session) : result unit * session :=
  match c with
  | Submit name email phone gender user password =>
      let (r, w') :=
        register_page hash_password name email phone gender user password
                      (state s) in
      (r, Session w' (logged_in s))
  | _ => (Ok tt, s)
  end.

(** [dashboard()]: the logout button, the stream started from a URL, and the
    uploaded video, saved as [temp_<unix-seconds>.mp4] on every run and
    played on request. *)
Definition dashboard (cfg : config) (d : detectors) (o : set_order)
    (c : click) (s : session) : result unit * session :=
  match c with
  | Logout =>
      (Raised RerunException, Session (set_page "login" (state s)) false)
  | Start src conf =>
      let (r, w') := run_camera cfg d o src conf (state s) in
      (r, Session w' (logged_in s))
  | Upload data clock play conf =>
      let path := "temp_" +:+ pretty (int_of_float clock) +:+ ".mp4" in
      let w1 := write_file path data (state s) in
      match play with
      | Some src =>
          let (r, w') := run_camera cfg d o src conf w1 in
          (r, Session w' (logged_in s))
      | None => (Ok tt, Session w1 (logged_in s))
      end
  | _ => (Ok tt, s)
  end.

(** The router at the end of the script. *)
Definition router (hash_password : string -> string) (cfg : config)
    (d : detectors) (o : set_order) (c : click) (s : session)
    : result unit * session :=
  if bool_decide (page (state s) = "login") then login_page hash_password c s
  else if bool_decide (page (state s) = "register")
       then register_view hash_password c s
  else if logged_in s then dashboard cfg d o c s
  else (Ok tt, s).

(** A session over several script runs; the session state outlives a run
    however the run ends. *)
Fixpoint runs (hash_password : string -> string) (cfg : config)
    (d : detectors) (o : set_order) (cs : list click) (s : session)
    : session :=
  match cs with
  | [] => s
  | c :: rest =>
      runs hash_password cfg d o rest (router hash_password cfg d o c s).2
  end.

(** A new session on the database and files of [w]: the defaults set at the
    top of the script. *)
Definition new_session (w : world) : session :=
  Session (World (users w) (users_seq w) (alerts w) (alerts_seq w) (files w)
                 "" 0 "login" (cap_held w) (trace w))
          false.

(** A visit: register, log in, watch two frames, log out. *)
Definition a_visit : list click :=
  [GoRegister;
   Submit "Alice" "alice@example.org" "5550100" "Female" "alice" "s3cret";
   Login "alice" "s3cret";
   Start two_frames (5 # 10);
   Logout].

(** ** Vocabulary of the further statements *)

(** A relation between worlds that every step of the frame loop respects. *)
Definition loop_closed (R : world -> world -> Prop) : Prop :=
  (forall w, R w w)
  /\ (forall w1 w2 w3, R w1 w2 -> R w2 w3 -> R w1 w3)
  /\ (forall evs w, R w (emits evs w))
  /\ (forall b w, R w (set_cap_held b w))
  /\ (forall cfg e text fr w, R w (exec (trigger_alert cfg e text fr) w)).

(** Column [username] of table [users] holds no value twice. *)
Definition unique_usernames (w : world) : Prop :=
  NoDup (u_username <$> users w).

(** Every row of [alerts] names a user of table [users]. *)
Definition alerts_reference_users (w : world) : Prop :=
  forall a, a ∈ alerts w ->
    exists r, r ∈ users w /\ u_username r = a_username a.

(** Every row of [alerts] points to a file that exists. *)
Definition snapshots_present (w : world) : Prop :=
  forall a, a ∈ alerts w -> is_Some (files w !! a_image_path a).

(** Being logged in and being on the dashboard go together. *)
Definition page_matches_login (s : session) : Prop :=
  (logged_in s = true /\ page (state s) = "dashboard")
  \/ (logged_in s = false
      /\ (page (state s) = "login" \/ page (state s) = "register")).

(** The interactions that start the frame loop. *)
Definition plays (c : click) : bool :=
  match c with
  | Start _ _ | Upload _ _ (Some _) _ => true
  | _ => false
  end.

(** The files in [files] are the pictures and videos the program writes
    itself. The sqlite database, [sqlite3.connect("users.db")], is held in
    the two tables instead; a name that starts with the database's is the
    database file or one of the journal files sqlite keeps beside it. *)
Definition database_file (p : string) : Prop :=
  String.prefix "users.db" p = true.

(** A file name that no snapshot can have. *)
Definition not_a_snapshot (p : string) : Prop :=
  forall e, p <> snapshot_name e.

(** The session is in order: who is logged in is a user, and so is whoever
    an alert row names. *)
Definition session_ok (s : session) : Prop :=
  (logged_in s = true ->
   exists r, r ∈ users (state s) /\ u_username r = username (state s))
  /\ alerts_reference_users (state s).

(** ** Basic facts *)

Lemma Qlt_bool_true (x y : Q) : Qlt_bool x y = true <-> (x < y)%Q.
Proof.
  unfold Qlt_bool. rewrite negb_true_iff, <- not_true_iff_false, Qle_bool_iff.
  split; [apply Qnot_le_lt | apply Qlt_not_le].
Qed.

Lemma Qlt_bool_false (x y : Q) : Qlt_bool x y = false <-> (y <= x)%Q.
Proof. unfold Qlt_bool. rewrite negb_false_iff. apply Qle_bool_iff. Qed.

(** On a clock that is not negative, [int] is the floor. *)
Lemma int_of_float_floor (x : Q) : (0 <= x)%Q -> int_of_float x = Qfloor x.
Proof.
  destruct x as [n dn]. unfold Qle, int_of_float, Qfloor. simpl.
  intros H. apply Z.quot_div_nonneg; lia.
Qed.

Lemma emit_emits (ev : event) (w : world) : emit ev w = emits [ev] w.
Proof. reflexivity. Qed.

Lemma emits_emits (a b : list event) (w : world) :
  emits b (emits a w) = emits (a ++ b) w.
Proof. unfold emits; simpl. by rewrite <- app_assoc. Qed.

Lemma emits_nil (w : world) : emits [] w = w.
Proof. destruct w; unfold emits; simpl. by rewrite app_nil_r. Qed.

Lemma send_email_spec cfg e subject message image_path w :
  send_email cfg e subject message image_path w
  = (Ok tt, emits (email_events cfg e subject message image_path w) w).
Proof.
  unfold send_email, email_events, try_except_Exception, bind, get; simpl.
  destruct (select_user (username w) w) as [row|]; simpl.
  - destruct (smtp_fault e) as [what|]; unfold modify, raise; simpl;
      by rewrite !emit_emits, emits_emits.
  - by rewrite emits_nil.
Qed.

Lemma send_sms_spec cfg e message w :
  send_sms cfg e message w = (Ok tt, emits (sms_events cfg e message w) w).
Proof.
  unfold send_sms, sms_events, try_except_Exception, bind, get; simpl.
  destruct (select_user (username w) w) as [row|]; simpl.
  - destruct (http_fault e) as [what|]; unfold modify, raise; simpl;
      by rewrite !emit_emits, ?emits_emits.
  - by rewrite emits_nil.
Qed.

(** ** The gate *)

Lemma trigger_alert_cooldown cfg e text fr w :
  Qlt_bool (clock_now e - last_alert_time w) ALERT_COOLDOWN = true ->
  trigger_alert cfg e text fr w = (Ok tt, w).
Proof. intros H. unfold trigger_alert, bind, get; simpl. by rewrite H. Qed.

Lemma trigger_alert_pass cfg e text fr w :
  Qlt_bool (clock_now e - last_alert_time w) ALERT_COOLDOWN = false ->
  trigger_alert cfg e text fr w
  = (Ok tt,
     World (users w) (users_seq w)
           (alerts w ++ [alert_record e text w]) (alerts_seq w + 1)
           (<[snapshot_name e := fr]> (files w))
           (username w) (clock_now e) (page w) (cap_held w)
           (trace w
            ++ email_events cfg e "Smart Alert" text (Some (snapshot_name e))
                 (imwrite (snapshot_name e) fr w)
            ++ sms_events cfg e text w)).
Proof.
  intros H. unfold trigger_alert, bind at 1, get at 1; simpl. rewrite H.
  unfold bind, modify; simpl.
  rewrite send_email_spec, send_sms_spec.
  unfold set_last_alert_time, emits, alert_record, snapshot_name; simpl.
  by rewrite <- app_assoc.
Qed.

(** Both cases of the cooldown test at the first call of [trigger_alert] in
    the goal. *)
Ltac gate_cases :=
  match goal with
  | |- context [trigger_alert ?c ?e ?t ?fr ?w] =>
      let H := fresh "Hgate" in
      destruct (Qlt_bool (clock_now e - last_alert_time w) ALERT_COOLDOWN)
        eqn:H;
      [rewrite (trigger_alert_cooldown c e t fr w H)
      |rewrite (trigger_alert_pass c e t fr w H)]
  end.

Lemma lets_through_iff cfg e text fr w :
  lets_through cfg e text fr w
  <-> Qlt_bool (clock_now e - last_alert_time w) ALERT_COOLDOWN = false.
Proof.
  unfold lets_through, exec. gate_cases; simpl.
  - split; [|done].
    intros [row Hrow]. apply (f_equal length) in Hrow.
    rewrite length_app in Hrow. simpl in Hrow. lia.
  - split; [done|]. eauto.
Qed.

(** C10. An attempt made less than 20 seconds after the last alert that
    went out has no effect whatever: [trigger_alert] returns with the world
    exactly as it was, hence without a snapshot file, a row in [alerts], a
    mail or SMS attempt, or a change of [last_alert_time]. *)
Theorem trigger_alert_suppressed cfg e text fr w :
  (clock_now e - last_alert_time w < 20)%Q ->
  trigger_alert cfg e text fr w = (Ok tt, w).
Proof.
  intros H. apply trigger_alert_cooldown. by apply Qlt_bool_true.
Qed.

Lemma trigger_alert_suppressed_witness :
  (clock_now env_soon - last_alert_time w_first < 20)%Q
  /\ trigger_alert cfg0 env_soon "Person Detected" [] w_first = (Ok tt, w_first).
Proof.
  split; [by vm_compute|].
  apply (trigger_alert_suppressed cfg0 env_soon "Person Detected" [] w_first).
  by vm_compute.
Defined.

(** C1. The gate lets an attempt at time [now] through exactly when
    [now - last_alert_time >= 20], and then sets [last_alert_time] to
    [now]. So after an attempt at [t0] that goes through, an attempt at
    [t1] with [t1 - t0 < 20] is held back, and one at [t0 + 21] goes through
    again. *)
Theorem gate_cooldown cfg e text fr w :
  (lets_through cfg e text fr w <-> (20 <= clock_now e - last_alert_time w)%Q)
  /\ (lets_through cfg e text fr w ->
      last_alert_time (exec (trigger_alert cfg e text fr) w) = clock_now e)
  /\ (forall e1 e2 text1 text2 fr1 fr2,
        (20 <= clock_now e - last_alert_time w)%Q ->
        (clock_now e1 - clock_now e < 20)%Q ->
        (clock_now e2 == clock_now e + 21)%Q ->
        let w1 := exec (trigger_alert cfg e text fr) w in
        let w2 := exec (trigger_alert cfg e1 text1 fr1) w1 in
        lets_through cfg e text fr w
        /\ ~ lets_through cfg e1 text1 fr1 w1
        /\ lets_through cfg e2 text2 fr2 w2).
Proof.
  assert (Hlast : lets_through cfg e text fr w ->
                  last_alert_time (exec (trigger_alert cfg e text fr) w)
                  = clock_now e).
  { intros H. apply lets_through_iff in H. unfold exec.
    by rewrite trigger_alert_pass. }
  split; [|split]; [| exact Hlast |].
  - rewrite lets_through_iff. apply Qlt_bool_false.
  - intros e1 e2 text1 text2 fr1 fr2 H0 H1 H2 w1 w2.
    assert (Hfirst : lets_through cfg e text fr w).
    { apply lets_through_iff. by apply Qlt_bool_false. }
    assert (Hw1 : last_alert_time w1 = clock_now e) by by apply Hlast.
    assert (Hheld : Qlt_bool (clock_now e1 - last_alert_time w1) ALERT_COOLDOWN
                    = true).
    { rewrite Hw1. by apply Qlt_bool_true. }
    assert (Hw2 : w2 = w1).
    { unfold w2, exec. by rewrite trigger_alert_cooldown. }
    split; [done|]. split.
    + rewrite lets_through_iff, Hheld. discriminate.
    + apply lets_through_iff, Qlt_bool_false. rewrite Hw2, Hw1.
      assert (Hd : (clock_now e2 - clock_now e == 21)%Q) by (rewrite H2; ring).
      unfold ALERT_COOLDOWN. rewrite Hd. discriminate.
Qed.

Lemma gate_cooldown_witness :
  ((20 <= clock_now env_first - last_alert_time w0)%Q
   /\ (clock_now env_soon - clock_now env_first < 20)%Q
   /\ (clock_now env_later == clock_now env_first + 21)%Q)
  /\ lets_through cfg0 env_first "Fire Detected" [] w0
  /\ ~ lets_through cfg0 env_soon "Fire Detected" [] w_first
  /\ lets_through cfg0 env_later "Person Detected" []
        (exec (trigger_alert cfg0 env_soon "Fire Detected" []) w_first).
Proof.
  assert (H0 : (20 <= clock_now env_first - last_alert_time w0)%Q)
    by by vm_compute.
  assert (H1 : (clock_now env_soon - clock_now env_first < 20)%Q)
    by by vm_compute.
  assert (H2 : (clock_now env_later == clock_now env_first + 21)%Q)
    by by vm_compute.
  split; [done|].
  exact (proj2 (proj2 (gate_cooldown cfg0 env_first "Fire Detected" [] w0))
           env_soon env_later "Fire Detected" "Person Detected" [] []
           H0 H1 H2).
Defined.

(** C9. When an alert goes out, the frame is written to the file
    [alert_<n>.jpg], where [n] is the whole seconds of the clock read in
    that same call ([n <= clock < n + 1], the clock not being negative) in
    decimal, and the row appended to [alerts] carries exactly that path in
    [image_path]. *)
Theorem snapshot_path_recorded cfg e text fr w :
  (20 <= clock_now e - last_alert_time w)%Q ->
  (0 <= clock_snap e)%Q ->
  exists n : Z,
    (inject_Z n <= clock_snap e)%Q
    /\ (clock_snap e < inject_Z n + 1)%Q
    /\ files (exec (trigger_alert cfg e text fr) w)
         !! ("alert_" +:+ pretty n +:+ ".jpg") = Some fr
    /\ exists row,
         alerts (exec (trigger_alert cfg e text fr) w) = alerts w ++ [row]
         /\ a_image_path row = "alert_" +:+ pretty n +:+ ".jpg".
Proof.
  intros H Hclock. apply Qlt_bool_false in H.
  exists (Qfloor (clock_snap e)).
  split; [apply Qfloor_le|]. split.
  { pose proof (Qlt_floor (clock_snap e)) as Hlt.
    by rewrite inject_Z_plus in Hlt. }
  unfold exec. rewrite trigger_alert_pass by done. simpl.
  unfold alert_record, snapshot_name.
  rewrite (int_of_float_floor _ Hclock). split.
  - apply lookup_insert_eq.
  - eexists. split; reflexivity.
Qed.

Lemma snapshot_path_recorded_witness :
  ((20 <= clock_now env_frac - last_alert_time w0)%Q
   /\ (0 <= clock_snap env_frac)%Q)
  /\ files (exec (trigger_alert cfg0 env_frac "Fire Detected" [Byte.x01]) w0)
       !! "alert_1700000000.jpg" = Some [Byte.x01]
  /\ exists row,
       alerts (exec (trigger_alert cfg0 env_frac "Fire Detected" [Byte.x01]) w0)
       = alerts w0 ++ [row]
       /\ a_image_path row = "alert_1700000000.jpg".
Proof.
  assert (H : (20 <= clock_now env_frac - last_alert_time w0)%Q)
    by by vm_compute.
  assert (Hclock : (0 <= clock_snap env_frac)%Q) by by vm_compute.
  split; [done|].
  destruct (snapshot_path_recorded cfg0 env_frac "Fire Detected" [Byte.x01] w0
              H Hclock) as (n & Hlo & Hhi & Hfile & Hrow).
  assert (En : n = 1700000000%Z).
  { unfold env_frac, env_at, Qle, Qlt, Qplus, inject_Z in Hlo, Hhi.
    simpl in Hlo, Hhi. lia. }
  rewrite En in Hfile, Hrow. split; [exact Hfile|exact Hrow].
Defined.

(** C3. Once an alert goes out, a failure raised in the mail channel does
    not keep the SMS channel from being tried, nor the other way round, and
    neither failure undoes anything: [trigger_alert] returns normally, the
    row is in [alerts], [last_alert_time] is updated, both channels were
    tried, and each failure is only printed. *)
Theorem channel_failures_contained cfg e text fr w :
  (20 <= clock_now e - last_alert_time w)%Q ->
  let w' := exec (trigger_alert cfg e text fr) w in
  outcome (trigger_alert cfg e text fr) w = Ok tt
  /\ alerts w' = alerts w ++ [alert_record e text w]
  /\ last_alert_time w' = clock_now e
  /\ forall row, select_user (username w) w = Some row ->
       exists mail sms,
         trace w' = trace w ++ (email_attempt :: mail)
                            ++ (sms_attempt cfg text row :: sms)
         /\ (forall what, smtp_fault e = Some what ->
               mail = [Print ("Email error: " +:+ what)])
         /\ (forall what, http_fault e = Some what ->
               sms = [Print ("SMS error: " +:+ what)]).
Proof.
  intros H w'. apply Qlt_bool_false in H.
  unfold w', outcome, exec. rewrite trigger_alert_pass by done. simpl.
  repeat split.
  intros row Hrow. unfold email_events, sms_events.
  change (select_user (username (imwrite (snapshot_name e) fr w))
            (imwrite (snapshot_name e) fr w))
    with (select_user (username w) w).
  rewrite Hrow. eexists _, _. split; [reflexivity|]. split.
  - intros what Hw. by rewrite Hw.
  - intros what Hw. by rewrite Hw.
Qed.

Lemma channel_failures_contained_witness :
  (20 <= clock_now env_faulty - last_alert_time w0)%Q
  /\ outcome (trigger_alert cfg0 env_faulty "Fire Detected" []) w0 = Ok tt
  /\ alerts (exec (trigger_alert cfg0 env_faulty "Fire Detected" []) w0)
     = [alert_record env_faulty "Fire Detected" w0]
  /\ last_alert_time (exec (trigger_alert cfg0 env_faulty "Fire Detected" []) w0)
     = t0
  /\ trace (exec (trigger_alert cfg0 env_faulty "Fire Detected" []) w0)
     = [email_attempt; Print "Email error: connection refused";
        sms_attempt cfg0 "Fire Detected" alice; Print "SMS error: timed out"].
Proof.
  assert (H : (20 <= clock_now env_faulty - last_alert_time w0)%Q)
    by by vm_compute.
  split; [done|].
  destruct (channel_failures_contained cfg0 env_faulty "Fire Detected" [] w0 H)
    as (Hok & Hrow & Hlast & Hsent).
  destruct (Hsent alice eq_refl) as (mail & sms & Htrace & Hmail & Hsms).
  rewrite (Hmail _ eq_refl), (Hsms _ eq_refl) in Htrace.
  split; [exact Hok|]. split; [exact Hrow|]. split; [exact Hlast|].
  exact Htrace.
Defined.

(** ** The detection adapter *)

Lemma person_step_hit conf acc b :
  person_step conf acc b
  = acc ++ (if person_hit conf b then ["Person Detected"] else []).
Proof.
  unfold person_step, person_hit.
  destruct (Qle_bool conf (box_conf b)); simpl;
    [destruct (box_cls b =? 0)%Z|]; by rewrite ?app_nil_r.
Qed.

Lemma fire_step_hit conf acc b :
  fire_step conf acc b
  = acc ++ (if fire_hit conf b then ["Fire Detected"] else []).
Proof.
  unfold fire_step, fire_hit.
  destruct (Qle_bool conf (box_conf b)); by rewrite ?app_nil_r.
Qed.

Lemma fold_person_step conf bs acc :
  fold_left (person_step conf) bs acc
  = acc ++ replicate (length (List.filter (person_hit conf) bs)) "Person Detected".
Proof.
  revert acc. induction bs as [|b bs IH]; intros acc; simpl.
  - by rewrite app_nil_r.
  - rewrite IH, person_step_hit. destruct (person_hit conf b); simpl.
    + by rewrite <- app_assoc.
    + by rewrite app_nil_r.
Qed.

Lemma fold_fire_step conf bs acc :
  fold_left (fire_step conf) bs acc
  = acc ++ replicate (length (List.filter (fire_hit conf) bs)) "Fire Detected".
Proof.
  revert acc. induction bs as [|b bs IH]; intros acc; simpl.
  - by rewrite app_nil_r.
  - rewrite IH, fire_step_hit. destruct (fire_hit conf b); simpl.
    + by rewrite <- app_assoc.
    + by rewrite app_nil_r.
Qed.

Lemma collected_counts results fire_results conf :
  collected results fire_results conf
  = replicate (length (List.filter (person_hit conf) (boxes results)))
              "Person Detected"
    ++ replicate (length (List.filter (fire_hit conf) (boxes fire_results)))
                 "Fire Detected".
Proof. unfold collected. by rewrite fold_fire_step, fold_person_step. Qed.

Lemma person_hit_iff conf b :
  person_hit conf b = true <-> (conf <= box_conf b)%Q /\ box_cls b = 0%Z.
Proof.
  unfold person_hit. by rewrite andb_true_iff, Qle_bool_iff, Z.eqb_eq.
Qed.

Lemma fire_hit_iff conf b : fire_hit conf b = true <-> (conf <= box_conf b)%Q.
Proof. apply Qle_bool_iff. Qed.

Lemma some_hit {A} (f : A -> bool) (l : list A) :
  length (List.filter f l) <> 0 <-> exists x, x ∈ l /\ f x = true.
Proof.
  induction l as [|a l IH]; simpl.
  - split; [done|]. intros (x & Hx & _). by apply elem_of_nil in Hx.
  - destruct (f a) eqn:Ha; simpl.
    + split; [|done]. intros _. exists a. split; [left|done].
    + rewrite IH. split; intros (x & Hx & Hf).
      * exists x. split; [by right|done].
      * apply elem_of_cons in Hx as [->|Hx]; [congruence|eauto].
Qed.

Lemma detect_events_elem o results fire_results conf x :
  x ∈ detect_events o results fire_results conf
  <-> x ∈ collected results fire_results conf.
Proof.
  unfold detect_events.
  by rewrite (list_of_set_perm o), elem_of_elements, elem_of_list_to_set.
Qed.

Lemma detect_events_NoDup o results fire_results conf :
  NoDup (detect_events o results fire_results conf).
Proof.
  unfold detect_events. rewrite (list_of_set_perm o). apply NoDup_elements.
Qed.

Lemma detect_events_label o results fire_results conf x :
  x ∈ detect_events o results fire_results conf ->
  x = "Person Detected" \/ x = "Fire Detected".
Proof.
  rewrite detect_events_elem, collected_counts, elem_of_app,
    !elem_of_replicate.
  intros [[-> _]|[-> _]]; auto.
Qed.

(** An event list is one of five. *)
Lemma events_shape (l : list string) :
  NoDup l ->
  (forall x, x ∈ l -> x = "Person Detected" \/ x = "Fire Detected") ->
  l = [] \/ l = ["Person Detected"] \/ l = ["Fire Detected"]
  \/ l = ["Person Detected"; "Fire Detected"]
  \/ l = ["Fire Detected"; "Person Detected"].
Proof.
  intros Hnd Hl.
  destruct l as [|a [|b [|c l]]].
  - by left.
  - destruct (Hl a) as [->| ->]; [left|auto|auto 6].
  - apply NoDup_cons in Hnd as [Hab _].
    rewrite list_elem_of_singleton in Hab.
    destruct (Hl a) as [->| ->]; [left|..];
      (destruct (Hl b) as [->| ->]; [right; left|..]); try done; auto 10.
  - exfalso.
    apply NoDup_cons in Hnd as [Ha Hnd]. apply NoDup_cons in Hnd as [Hb _].
    rewrite !elem_of_cons in Ha. rewrite elem_of_cons in Hb.
    destruct (Hl a) as [->| ->]; [left|..];
      (destruct (Hl b) as [->| ->]; [right; left|..]);
      (destruct (Hl c) as [->| ->]; [right; right; left|..]); tauto.
Qed.

Lemma detect_events_shape o results fire_results conf :
  let evs := detect_events o results fire_results conf in
  evs = [] \/ evs = ["Person Detected"] \/ evs = ["Fire Detected"]
  \/ evs = ["Person Detected"; "Fire Detected"]
  \/ evs = ["Fire Detected"; "Person Detected"].
Proof.
  apply events_shape;
    [apply detect_events_NoDup | apply detect_events_label].
Qed.

(** C2. With threshold [conf], a box of the general model adds
    "Person Detected" exactly when its confidence is at least [conf] and its
    class is 0, a box of the fire model adds "Fire Detected" exactly when its
    confidence is at least [conf], whatever its class, and a box below the
    threshold adds nothing; the labels returned are those so added. *)
Theorem detect_events_threshold o results fire_results conf :
  (forall acc b,
     person_step conf acc b
     = acc ++ (if person_hit conf b then ["Person Detected"] else []))
  /\ (forall acc b,
        fire_step conf acc b
        = acc ++ (if fire_hit conf b then ["Fire Detected"] else []))
  /\ (forall b, person_hit conf b = true
                <-> (conf <= box_conf b)%Q /\ box_cls b = 0%Z)
  /\ (forall b, fire_hit conf b = true <-> (conf <= box_conf b)%Q)
  /\ (forall acc b, (box_conf b < conf)%Q ->
        person_step conf acc b = acc /\ fire_step conf acc b = acc)
  /\ collected results fire_results conf
     = replicate (length (List.filter (person_hit conf) (boxes results)))
                 "Person Detected"
       ++ replicate (length (List.filter (fire_hit conf) (boxes fire_results)))
                    "Fire Detected"
  /\ ("Person Detected" ∈ detect_events o results fire_results conf
      <-> exists b, b ∈ boxes results
                    /\ (conf <= box_conf b)%Q /\ box_cls b = 0%Z)
  /\ ("Fire Detected" ∈ detect_events o results fire_results conf
      <-> exists b, b ∈ boxes fire_results /\ (conf <= box_conf b)%Q)
  /\ (forall x, x ∈ detect_events o results fire_results conf ->
        x = "Person Detected" \/ x = "Fire Detected").
Proof.
  split; [apply person_step_hit|]. split; [apply fire_step_hit|].
  split; [apply person_hit_iff|]. split; [apply fire_hit_iff|].
  split; [|split; [apply collected_counts|]].
  { intros acc b Hlt.
    assert (Hb : Qle_bool conf (box_conf b) = false).
    { apply not_true_iff_false. rewrite Qle_bool_iff. by apply Qlt_not_le. }
    unfold person_step, fire_step. by rewrite Hb. }
  split; [|split; [|apply detect_events_label]].
  - rewrite detect_events_elem, collected_counts, elem_of_app,
      !elem_of_replicate, some_hit.
    setoid_rewrite person_hit_iff. split; [|by auto].
    intros [[_ H]|[H _]]; [done|discriminate].
  - rewrite detect_events_elem, collected_counts, elem_of_app,
      !elem_of_replicate, !some_hit.
    setoid_rewrite fire_hit_iff. split; [|by auto].
    intros [[H _]|[_ H]]; [discriminate|done].
Qed.

Lemma detect_events_threshold_witness :
  (box_conf (Box (3 # 10) 0) < 5 # 10)%Q
  /\ person_step (5 # 10) [] (Box (3 # 10) 0) = []
  /\ fire_step (5 # 10) [] (Box (3 # 10) 0) = [].
Proof.
  assert (H : (box_conf (Box (3 # 10) 0) < 5 # 10)%Q) by by vm_compute.
  split; [done|].
  exact (proj1 (proj2 (proj2 (proj2 (proj2
           (detect_events_threshold elements_order no_boxes no_boxes (5 # 10))))))
           [] (Box (3 # 10) 0) H).
Defined.

(** C8. The list returned by [detect_events] has no repeated entry: a label
    that was collected, however many boxes gave it, occurs in it exactly
    once; two boxes that both give "Person Detected" yield the one-element
    list. *)
Theorem detect_events_deduplicated o results fire_results conf :
  NoDup (detect_events o results fire_results conf)
  /\ (forall x, x ∈ collected results fire_results conf ->
        count_occ String.string_dec (detect_events o results fire_results conf) x = 1)
  /\ (forall b1 b2 picture,
        person_hit conf b1 = true -> person_hit conf b2 = true ->
        detect_events o {| boxes := [b1; b2]; plot := picture |} no_boxes conf
        = ["Person Detected"]).
Proof.
  split; [apply detect_events_NoDup|]. split.
  - intros x Hx. apply detect_events_elem with (o := o) in Hx.
    apply NoDup_count_occ'; [|by apply list_elem_of_In].
    apply NoDup_ListNoDup, detect_events_NoDup.
  - intros b1 b2 picture H1 H2. unfold detect_events.
    apply Permutation_singleton_r. rewrite (list_of_set_perm o).
    rewrite collected_counts. simpl. by rewrite H1, H2.
Qed.

Lemma detect_events_deduplicated_witness :
  (person_hit (5 # 10) (Box (9 # 10) 0) = true
   /\ person_hit (5 # 10) (Box (7 # 10) 0) = true)
  /\ detect_events reverse_order two_persons no_boxes (5 # 10)
     = ["Person Detected"].
Proof.
  split; [by split|].
  exact (proj2 (proj2 (detect_events_deduplicated reverse_order
                         no_boxes no_boxes (5 # 10)))
           (Box (9 # 10) 0) (Box (7 # 10) 0) [] eq_refl eq_refl).
Defined.

(** ** The composite message *)

Example join_two :
  join " | " ["Fire Detected"; "Person Detected"]
  = "Fire Detected | Person Detected".
Proof. reflexivity. Qed.

Example split_two :
  split " | " "Person Detected | Fire Detected"
  = ["Person Detected"; "Fire Detected"].
Proof. reflexivity. Qed.

Lemma split_join_events (l : list string) :
  l = ["Person Detected"] \/ l = ["Fire Detected"]
  \/ l = ["Person Detected"; "Fire Detected"]
  \/ l = ["Fire Detected"; "Person Detected"] ->
  split " | " (join " | " l) = l.
Proof. intros [->|[->|[->| ->]]]; reflexivity. Qed.

Lemma contains_join_events (l : list string) (x : string) :
  l = ["Person Detected"] \/ l = ["Fire Detected"]
  \/ l = ["Person Detected"; "Fire Detected"]
  \/ l = ["Fire Detected"; "Person Detected"] ->
  x ∈ l -> contains (join " | " l) x.
Proof.
  intros [->|[->|[->| ->]]] Hx;
    repeat (apply elem_of_cons in Hx as [->|Hx]);
    try (by apply elem_of_nil in Hx).
  - by exists "", "".
  - by exists "", "".
  - by exists "", " | Fire Detected".
  - by exists "Person Detected | ", "".
  - by exists "", " | Person Detected".
  - by exists "Fire Detected | ", "".
Qed.

(** ** One frame *)

Lemma frame_body_ok cfg d o conf fr e w results fire_results :
  model d fr conf = Ok results ->
  fire_model d fr conf = Ok fire_results ->
  frame_body cfg d o conf fr e w
  = match detect_events o results fire_results conf with
    | _ :: _ =>
        let text := join " | " (detect_events o results fire_results conf) in
        trigger_alert cfg e text fr
          (emits [UiImage (plot results); UiError text] w)
    | [] =>
        (Ok tt,
         emits [UiImage (plot results); UiSuccess "No threats detected"] w)
    end.
Proof.
  intros Hm Hf. unfold frame_body, bind, lift, modify. rewrite Hm, Hf. simpl.
  destruct (detect_events o results fire_results conf); simpl;
    by rewrite !emit_emits, emits_emits.
Qed.

(** C5. For a non-empty event list the message shown and handed to the gate
    is the labels joined with " | "; splitting it at " | " gives the labels
    back, so two event lists that are equal as sets give messages with the
    same labels, each label occurring in both messages; with both labels
    present the message is one of the two orders, joined by " | ". *)
Theorem composite_message_labels cfg d e fr w o1 o2 r1 f1 r2 f2 conf :
  let evs1 := detect_events o1 r1 f1 conf in
  let evs2 := detect_events o2 r2 f2 conf in
  evs1 <> [] ->
  (forall x, x ∈ evs1 <-> x ∈ evs2) ->
  (model d fr conf = Ok r1 -> fire_model d fr conf = Ok f1 ->
   frame_body cfg d o1 conf fr e w
   = trigger_alert cfg e (join " | " evs1) fr
       (emits [UiImage (plot r1); UiError (join " | " evs1)] w))
  /\ split " | " (join " | " evs1) = evs1
  /\ split " | " (join " | " evs2) = evs2
  /\ split " | " (join " | " evs1) ≡ₚ split " | " (join " | " evs2)
  /\ (forall x, x ∈ evs1 ->
        contains (join " | " evs1) x /\ contains (join " | " evs2) x)
  /\ ("Fire Detected" ∈ evs1 -> "Person Detected" ∈ evs1 ->
      join " | " evs1 = "Fire Detected | Person Detected"
      \/ join " | " evs1 = "Person Detected | Fire Detected").
Proof.
  intros evs1 evs2 Hne Hsame.
  assert (Hne2 : evs2 <> []).
  { intros H2. destruct evs1 as [|x l] eqn:E; [done|].
    assert (Hx : x ∈ evs2) by (apply Hsame; left).
    rewrite H2 in Hx. by apply elem_of_nil in Hx. }
  assert (S1 : evs1 = ["Person Detected"] \/ evs1 = ["Fire Detected"]
               \/ evs1 = ["Person Detected"; "Fire Detected"]
               \/ evs1 = ["Fire Detected"; "Person Detected"]).
  { destruct (detect_events_shape o1 r1 f1 conf) as [H|H]; [done|exact H]. }
  assert (S2 : evs2 = ["Person Detected"] \/ evs2 = ["Fire Detected"]
               \/ evs2 = ["Person Detected"; "Fire Detected"]
               \/ evs2 = ["Fire Detected"; "Person Detected"]).
  { destruct (detect_events_shape o2 r2 f2 conf) as [H|H]; [done|exact H]. }
  split; [|split; [|split; [|split; [|split]]]].
  - intros Hm Hf. rewrite (frame_body_ok _ _ _ _ _ _ _ r1 f1) by done.
    fold evs1. by destruct evs1.
  - by apply split_join_events.
  - by apply split_join_events.
  - rewrite !split_join_events by done.
    apply NoDup_Permutation; [apply detect_events_NoDup..|done].
  - intros x Hx. split; apply contains_join_events; try done. by apply Hsame.
  - intros HF HP. destruct S1 as [E|[E|[E|E]]]; rewrite E in HF, HP |- *.
    + apply list_elem_of_singleton in HF. discriminate.
    + apply list_elem_of_singleton in HP. discriminate.
    + by right.
    + by left.
Qed.

Lemma composite_message_labels_witness :
  (detect_events elements_order one_person one_fire (5 # 10) <> []
   /\ forall x,
        x ∈ detect_events elements_order one_person one_fire (5 # 10)
        <-> x ∈ detect_events reverse_order one_person one_fire (5 # 10))
  /\ split " | "
       (join " | " (detect_events elements_order one_person one_fire (5 # 10)))
     ≡ₚ split " | "
          (join " | " (detect_events reverse_order one_person one_fire (5 # 10))).
Proof.
  assert (E1 : detect_events elements_order one_person one_fire (5 # 10)
               = ["Fire Detected"; "Person Detected"]) by by vm_compute.
  assert (E2 : detect_events reverse_order one_person one_fire (5 # 10)
               = ["Person Detected"; "Fire Detected"]) by by vm_compute.
  assert (Hne : detect_events elements_order one_person one_fire (5 # 10) <> [])
    by by rewrite E1.
  assert (Hsame : forall x,
            x ∈ detect_events elements_order one_person one_fire (5 # 10)
            <-> x ∈ detect_events reverse_order one_person one_fire (5 # 10)).
  { intros x. rewrite E1, E2, !elem_of_cons. tauto. }
  split; [by split|].
  exact (proj1 (proj2 (proj2 (proj2
           (composite_message_labels cfg0 busy_detectors env_first [] w0
              elements_order reverse_order one_person one_fire
              one_person one_fire (5 # 10) Hne Hsame))))).
Defined.

(** C4. A frame whose event list is empty raises no alert, whatever the
    clock says: the frame is shown with the "No threats detected" status and
    that is all; no snapshot is written, [alerts] gets no row, nothing is
    sent, and [last_alert_time] stays. *)
Theorem empty_events_no_alert cfg d o conf fr e w results fire_results :
  model d fr conf = Ok results ->
  fire_model d fr conf = Ok fire_results ->
  detect_events o results fire_results conf = [] ->
  let w' := exec (frame_body cfg d o conf fr e) w in
  frame_body cfg d o conf fr e w
  = (Ok tt, emits [UiImage (plot results); UiSuccess "No threats detected"] w)
  /\ alerts w' = alerts w
  /\ files w' = files w
  /\ last_alert_time w' = last_alert_time w
  /\ trace w'
     = trace w ++ [UiImage (plot results); UiSuccess "No threats detected"].
Proof.
  intros Hm Hf Hev w'. unfold w', exec.
  rewrite (frame_body_ok _ _ _ _ _ _ _ results fire_results) by done.
  by rewrite Hev.
Qed.

Lemma empty_events_no_alert_witness :
  (model quiet_detectors [] (5 # 10) = Ok no_boxes
   /\ fire_model quiet_detectors [] (5 # 10) = Ok no_boxes
   /\ detect_events elements_order no_boxes no_boxes (5 # 10) = [])
  /\ frame_body cfg0 quiet_detectors elements_order (5 # 10) [] env_first w0
     = (Ok tt, emits [UiImage []; UiSuccess "No threats detected"] w0).
Proof.
  split; [by repeat split|].
  exact (proj1 (empty_events_no_alert cfg0 quiet_detectors elements_order
                  (5 # 10) [] env_first w0 no_boxes no_boxes
                  eq_refl eq_refl eq_refl)).
Defined.

(** ** The capture handle *)

Lemma keeps_cap_bind {A B} (m : M A) (k : A -> M B) :
  keeps_cap m -> (forall a, keeps_cap (k a)) -> keeps_cap (bind m k).
Proof.
  intros Hm Hk w. unfold exec, bind. specialize (Hm w). unfold exec in Hm.
  destruct (m w) as [[a|err] w1]; simpl in *; [|done].
  rewrite <- Hm. apply Hk.
Qed.

Lemma keeps_cap_trigger_alert cfg e text fr :
  keeps_cap (trigger_alert cfg e text fr).
Proof.
  intros w. unfold exec. by gate_cases.
Qed.

Lemma keeps_cap_frame_body cfg d o conf fr e :
  keeps_cap (frame_body cfg d o conf fr e).
Proof.
  intros w. unfold exec.
  destruct (model d fr conf) as [r|err] eqn:Hm;
    [|by unfold frame_body, bind, lift; rewrite Hm].
  destruct (fire_model d fr conf) as [f|err] eqn:Hf;
    [|by unfold frame_body, bind, lift; rewrite Hm, Hf].
  rewrite (frame_body_ok _ _ _ _ _ _ _ r f) by done.
  destruct (detect_events o r f conf) as [|x l]; [done|].
  exact (keeps_cap_trigger_alert cfg e (join " | " (x :: l)) fr (emits _ w)).
Qed.

Lemma keeps_cap_frame_loop cfg d o conf pending :
  keeps_cap (frame_loop cfg d o conf pending).
Proof.
  induction pending as [|[fr e] rest IH]; [done|]. simpl.
  apply keeps_cap_bind; [apply keeps_cap_frame_body | intros _; exact IH].
Qed.

Lemma frame_loop_ok cfg d o conf pending w :
  (forall fr e, (fr, e) ∈ pending ->
     (exists r, model d fr conf = Ok r) /\ (exists f, fire_model d fr conf = Ok f)) ->
  outcome (frame_loop cfg d o conf pending) w = Ok tt.
Proof.
  revert w. induction pending as [|[fr e] rest IH]; intros w Hall; [done|].
  assert (Hin : (fr, e) ∈ (fr, e) :: rest) by (apply elem_of_cons; by left).
  destruct (Hall fr e Hin) as [[r Hm] [f Hf]].
  unfold outcome in *. simpl. unfold bind at 1.
  rewrite (frame_body_ok _ _ _ _ _ _ _ r f) by done.
  assert (Hrest : forall w1, (frame_loop cfg d o conf rest w1).1 = Ok tt).
  { intros w1. apply IH. intros fr' e' Hin'. apply (Hall fr' e').
    apply elem_of_cons. by right. }
  destruct (detect_events o r f conf); [apply Hrest|]. cbv zeta.
  gate_cases; apply Hrest.
Qed.

(** C6, as the code has it. [run_camera] releases the capture handle when
    it returns: the source did not open, or ran out of frames. An error
    raised in the loop leaves [run_camera] at once, with the handle still
    held; and as long as no detector call raises, [run_camera] returns. *)
Theorem run_camera_release cfg d o src conf w :
  match outcome (run_camera cfg d o src conf) w with
  | Ok _ => cap_held (exec (run_camera cfg d o src conf) w) = false
  | Raised _ => cap_held (exec (run_camera cfg d o src conf) w) = true
  end
  /\ ((forall fr e, (fr, e) ∈ src_frames src ->
         (exists r, model d fr conf = Ok r)
         /\ (exists f, fire_model d fr conf = Ok f)) ->
      outcome (run_camera cfg d o src conf) w = Ok tt
      /\ cap_held (exec (run_camera cfg d o src conf) w) = false).
Proof.
  unfold outcome, exec, run_camera, bind, modify. simpl.
  destruct (src_opens src) eqn:Hopen; [|by split].
  pose proof (keeps_cap_frame_loop cfg d o conf (src_frames src)
                (set_cap_held true w)) as Hcap.
  unfold exec in Hcap. split.
  - destruct (frame_loop cfg d o conf (src_frames src) (set_cap_held true w))
      as [[[]|err] w1]; simpl in *; done.
  - intros Hall.
    pose proof (frame_loop_ok cfg d o conf (src_frames src)
                  (set_cap_held true w) Hall) as Hok.
    unfold outcome in Hok.
    destruct (frame_loop cfg d o conf (src_frames src) (set_cap_held true w))
      as [[[]|err] w1]; simpl in *; done.
Qed.

Lemma run_camera_release_witness :
  outcome (run_camera cfg0 busy_detectors elements_order two_frames (5 # 10)) w0
  = Ok tt
  /\ cap_held (exec (run_camera cfg0 busy_detectors elements_order two_frames
                       (5 # 10)) w0)
     = false.
Proof.
  apply (proj2 (run_camera_release cfg0 busy_detectors elements_order
                  two_frames (5 # 10) w0)).
  intros fr e _. split; eexists; reflexivity.
Defined.

(** C6, as the specification states it, fails: with a source that opens and
    delivers one frame on which the general model raises, [run_camera] ends
    by that error and the capture handle is still held. *)
Lemma run_camera_leak :
  outcome (run_camera cfg0 failing_detectors elements_order one_frame (5 # 10)) w0
  = Raised (PyException "inference failed")
  /\ cap_held (exec (run_camera cfg0 failing_detectors elements_order one_frame
                       (5 # 10)) w0)
     <> false.
Proof. by vm_compute. Qed.

(** The scenario of three frames: fire at [t0], fire one second later,
    nothing 25 seconds after the first. One row is written, for the first
    frame, and the handle is released. *)
Example three_frames_one_alert :
  run_camera cfg0 fire_on_nonempty elements_order three_frames (5 # 10) w0
  = (Ok tt,
     {| users := [alice]; users_seq := 1;
        alerts := [alert_record env_first "Fire Detected" w0]; alerts_seq := 1;
        files := {["alert_1700000000.jpg" := [Byte.x01]]};
        username := "alice"; last_alert_time := t0;
        page := "dashboard"; cap_held := false;
        trace := [UiImage []; UiError "Fire Detected";
                  email_attempt;
                  SmtpSendmail "monitor@example.org" "alice@example.org"
                    "Smart Alert" "Fire Detected" (Some [Byte.x01]);
                  sms_attempt cfg0 "Fire Detected" alice;
                  UiImage []; UiError "Fire Detected";
                  UiImage []; UiSuccess "No threats detected"] |}).
Proof. by vm_compute. Qed.

(** ** Registration *)

Lemma existsb_rows_named u w :
  existsb (has_username u) (users w) = false <-> rows_named u w = 0.
Proof.
  unfold rows_named. induction (users w) as [|r l IH]; simpl; [done|].
  rewrite filter_cons. unfold has_username at 1.
  destruct (decide (u_username r = u)) as [E|E].
  - rewrite bool_decide_eq_true_2 by done. simpl. split; discriminate.
  - by rewrite bool_decide_eq_false_2.
Qed.

Lemma register_page_fresh h name email phone gender user password w :
  rows_named user w = 0 ->
  register_page h name email phone gender user password w
  = (Ok tt,
     World (users w ++ [{| u_id := users_seq w + 1; u_name := name;
                           u_email := email; u_phone := phone;
                           u_gender := gender; u_username := user;
                           u_password := h password;
                           u_role := "user"; u_status := "active" |}])
           (users_seq w + 1) (alerts w) (alerts_seq w) (files w)
           (username w) (last_alert_time w) "login" (cap_held w)
           (trace w ++ [UiSuccess "Registered Successfully";
                        UiError "Username already exists"])).
Proof.
  intros H. apply existsb_rows_named in H.
  unfold register_page, try_except, bind, insert_user. rewrite H. simpl.
  unfold modify, emit. simpl. by rewrite <- app_assoc.
Qed.

Lemma register_page_taken h name email phone gender user password w :
  rows_named user w <> 0 ->
  register_page h name email phone gender user password w
  = (Ok tt, emit (UiError "Username already exists") w).
Proof.
  intros H. rewrite <- existsb_rows_named in H. apply not_false_is_true in H.
  unfold register_page, try_except, bind, insert_user. by rewrite H.
Qed.

(** C7, what [register_page] does. Registering a username that is not yet
    in [users] and then the same username again: the first attempt writes
    the row and shows "Registered Successfully", and then, although nothing
    is in conflict, "Username already exists" as well, because the rerun
    request raised by [st.rerun()] is caught by the bare [except]; the page
    function returns normally both times. The second attempt shows
    "Username already exists" and changes nothing else; in the end [users]
    has exactly one row with that username. *)
Theorem register_twice h n1 m1 p1 g1 pw1 n2 m2 p2 g2 pw2 user w :
  rows_named user w = 0 ->
  let w1 := exec (register_page h n1 m1 p1 g1 user pw1) w in
  let w2 := exec (register_page h n2 m2 p2 g2 user pw2) w1 in
  outcome (register_page h n1 m1 p1 g1 user pw1) w = Ok tt
  /\ users w1
     = users w ++ [{| u_id := users_seq w + 1; u_name := n1; u_email := m1;
                      u_phone := p1; u_gender := g1; u_username := user;
                      u_password := h pw1;
                      u_role := "user"; u_status := "active" |}]
  /\ trace w1 = trace w ++ [UiSuccess "Registered Successfully";
                            UiError "Username already exists"]
  /\ outcome (register_page h n2 m2 p2 g2 user pw2) w1 = Ok tt
  /\ w2 = emit (UiError "Username already exists") w1
  /\ users w2 = users w1
  /\ rows_named user w2 = 1.
Proof.
  intros Hfresh w1 w2.
  assert (E1 : w1 = _) by
    (unfold w1, exec; rewrite register_page_fresh by done; reflexivity).
  assert (Hone : rows_named user w1 = 1).
  { rewrite E1. unfold rows_named in *. simpl.
    rewrite filter_app, length_app, Hfresh, filter_cons. simpl.
    by rewrite decide_True. }
  assert (Htaken : rows_named user w1 <> 0) by (rewrite Hone; lia).
  assert (E2 : w2 = emit (UiError "Username already exists") w1).
  { unfold w2, exec. by rewrite register_page_taken. }
  split; [unfold outcome; by rewrite register_page_fresh|].
  split; [by rewrite E1|]. split; [by rewrite E1|].
  split; [unfold outcome; by rewrite register_page_taken|].
  split; [done|]. by rewrite E2.
Qed.

Lemma register_twice_witness :
  rows_named "alice" w_nobody = 0
  /\ trace (exec (register_page toy_digest "Alice" "alice@example.org"
                    "5550100" "Female" "alice" "s3cret") w_nobody)
     = [UiSuccess "Registered Successfully";
        UiError "Username already exists"]
  /\ rows_named "alice"
       (exec (register_page toy_digest "A. Other" "other@example.org" "5550111"
                "Other" "alice" "hunter2")
          (exec (register_page toy_digest "Alice" "alice@example.org" "5550100"
                   "Female" "alice" "s3cret") w_nobody))
     = 1.
Proof.
  split; [reflexivity|].
  destruct (register_twice toy_digest
              "Alice" "alice@example.org" "5550100" "Female" "s3cret"
              "A. Other" "other@example.org" "5550111" "Other" "hunter2"
              "alice" w_nobody eq_refl)
    as (_ & _ & Htrace & _ & _ & _ & Hone).
  split; [exact Htrace|exact Hone].
Defined.

(** ** What a run of the frame loop respects *)

Section LoopClosed.
Variable R : world -> world -> Prop.
Hypothesis HR : loop_closed R.

Lemma frame_body_closed cfg d o conf fr e w :
  R w (exec (frame_body cfg d o conf fr e) w).
Proof.
  destruct HR as (Hrefl & Htrans & Hemits & _ & Htrig). unfold exec.
  destruct (model d fr conf) as [r|err] eqn:Hm;
    [|unfold frame_body, bind, lift; rewrite Hm; apply Hrefl].
  destruct (fire_model d fr conf) as [f|err] eqn:Hf;
    [|unfold frame_body, bind, lift; rewrite Hm, Hf; apply Hrefl].
  rewrite (frame_body_ok _ _ _ _ _ _ _ r f) by done.
  destruct (detect_events o r f conf) as [|x l]; [apply Hemits|].
  eapply Htrans; [apply Hemits|]. apply Htrig.
Qed.

Lemma frame_loop_closed cfg d o conf pending w :
  R w (exec (frame_loop cfg d o conf pending) w).
Proof.
  destruct HR as (Hrefl & Htrans & _).
  revert w. induction pending as [|[fr e] rest IH]; intros w; [apply Hrefl|].
  pose proof (frame_body_closed cfg d o conf fr e w) as Hbody.
  unfold exec in *. simpl. unfold bind.
  destruct (frame_body cfg d o conf fr e w) as [[[]|err] w1]; [|exact Hbody].
  eapply Htrans; [exact Hbody|apply IH].
Qed.

Lemma run_camera_closed cfg d o src conf w :
  R w (exec (run_camera cfg d o src conf) w).
Proof.
  destruct HR as (Hrefl & Htrans & _ & Hcap & _).
  unfold exec, run_camera, bind, modify. simpl.
  destruct (src_opens src).
  - pose proof (frame_loop_closed cfg d o conf (src_frames src)
                  (set_cap_held true w)) as Hloop.
    unfold exec in Hloop.
    destruct (frame_loop cfg d o conf (src_frames src) (set_cap_held true w))
      as [[[]|err] w1]; simpl in *.
    + eapply Htrans; [apply Hcap|]. eapply Htrans; [exact Hloop|apply Hcap].
    + eapply Htrans; [apply Hcap|exact Hloop].
  - simpl. eapply Htrans; apply Hcap.
Qed.
End LoopClosed.

Lemma frame_loop_app cfg d o conf a b w :
  frame_loop cfg d o conf (a ++ b) w
  = bind (frame_loop cfg d o conf a) (fun _ => frame_loop cfg d o conf b) w.
Proof.
  revert w. induction a as [|[fr e] a IH]; intros w; [done|].
  simpl. unfold bind.
  destruct (frame_body cfg d o conf fr e w) as [[[]|err] w1]; [|done].
  by rewrite IH.
Qed.

Lemma frame_body_raises cfg d o conf fr e :
  (exists err, model d fr conf = Raised err)
  \/ (exists err, fire_model d fr conf = Raised err) ->
  exists err, forall w, frame_body cfg d o conf fr e w = (Raised err, w).
Proof.
  intros H. unfold frame_body, bind, lift.
  destruct (model d fr conf) as [r|err1] eqn:Hm.
  - destruct H as [[err H]|[err H]]; [discriminate|].
    exists err. intros w. by rewrite H.
  - by exists err1.
Qed.

(** What one frame can do to the world: end the run by an error and leave
    the world alone, only show something, or let an alert out. *)
Lemma frame_body_outcomes cfg d o conf fr e w :
  (exists err, frame_body cfg d o conf fr e w = (Raised err, w))
  \/ (exists evs, frame_body cfg d o conf fr e w = (Ok tt, emits evs w))
  \/ (exists text w',
        (20 <= clock_now e - last_alert_time w)%Q
        /\ frame_body cfg d o conf fr e w = (Ok tt, w')
        /\ alerts w' = alerts w ++ [alert_record e text w]
        /\ last_alert_time w' = clock_now e).
Proof.
  destruct (model d fr conf) as [r|err] eqn:Hm.
  2:{ left. destruct (frame_body_raises cfg d o conf fr e) as [err' H]; eauto. }
  destruct (fire_model d fr conf) as [f|err] eqn:Hf.
  2:{ left. destruct (frame_body_raises cfg d o conf fr e) as [err' H]; eauto. }
  right. rewrite (frame_body_ok _ _ _ _ _ _ _ r f) by done.
  destruct (detect_events o r f conf) as [|x l]; [left; eauto|]. cbv zeta.
  gate_cases; [left; eauto|].
  right. eexists _, _. split; [by apply Qlt_bool_false in Hgate|].
  split; [reflexivity|]. by split.
Qed.

(** X1. The time of the last alert never moves back: neither one call of
    [trigger_alert] nor a whole run of [run_camera] lowers
    [last_alert_time], whatever the clock readings are. *)
Theorem last_alert_time_never_decreases cfg d o src conf e text fr w :
  (last_alert_time w
   <= last_alert_time (exec (trigger_alert cfg e text fr) w))%Q
  /\ (last_alert_time w
      <= last_alert_time (exec (run_camera cfg d o src conf) w))%Q.
Proof.
  assert (Htrig : forall cfg e text fr w,
            (last_alert_time w
             <= last_alert_time (exec (trigger_alert cfg e text fr) w))%Q).
  { clear. intros cfg e text fr w. unfold exec. gate_cases; simpl.
    - apply Qle_refl.
    - apply Qlt_bool_false in Hgate. unfold ALERT_COOLDOWN in Hgate. lra. }
  split; [apply Htrig|].
  apply (run_camera_closed
           (fun w w' => (last_alert_time w <= last_alert_time w')%Q)).
  repeat split.
  - intros; apply Qle_refl.
  - intros w1 w2 w3. apply Qle_trans.
  - intros; apply Qle_refl.
  - intros; apply Qle_refl.
  - apply Htrig.
Qed.

Lemma run_camera_log cfg d o src conf w :
  users (exec (run_camera cfg d o src conf) w) = users w
  /\ users_seq (exec (run_camera cfg d o src conf) w) = users_seq w
  /\ username (exec (run_camera cfg d o src conf) w) = username w
  /\ page (exec (run_camera cfg d o src conf) w) = page w
  /\ exists new,
       alerts (exec (run_camera cfg d o src conf) w) = alerts w ++ new
       /\ forall a, a ∈ new -> a_username a = username w.
Proof.
  apply (run_camera_closed
           (fun w w' =>
              users w' = users w /\ users_seq w' = users_seq w
              /\ username w' = username w /\ page w' = page w
              /\ exists new, alerts w' = alerts w ++ new
                   /\ forall a, a ∈ new -> a_username a = username w)).
  assert (Hsame : forall w,
            exists new : list alert_row,
              alerts w = alerts w ++ new
              /\ forall a, a ∈ new -> a_username a = username w).
  { intros w1. exists []. split; [by rewrite app_nil_r|].
    intros a Ha. by apply elem_of_nil in Ha. }
  split; [|split; [|split; [|split]]].
  - intros w1. repeat split. apply Hsame.
  - intros w1 w2 w3 (Hu & Hs & Hn & Hp & new & Hnew & Hall)
      (Hu' & Hs' & Hn' & Hp' & new' & Hnew' & Hall').
    repeat split; try congruence.
    exists (new ++ new'). split; [by rewrite Hnew', Hnew, app_assoc|].
    intros a [Ha|Ha]%elem_of_app; [by apply Hall|].
    rewrite <- Hn. by apply Hall'.
  - intros evs w1. repeat split. exact (Hsame w1).
  - intros b w1. repeat split. exact (Hsame w1).
  - intros cfg' e text fr w1. unfold exec. gate_cases; simpl.
    + repeat split. exact (Hsame w1).
    + repeat split. exists [alert_record e text w1]. split; [done|].
      by intros a ->%list_elem_of_singleton.
Qed.

(** X2. A run of [run_camera] only appends to table [alerts], every new row
    under the username of the session, and leaves table [users], the
    session's username and the page as they were. *)
Theorem run_camera_appends_alerts cfg d o src conf w :
  users (exec (run_camera cfg d o src conf) w) = users w
  /\ users_seq (exec (run_camera cfg d o src conf) w) = users_seq w
  /\ username (exec (run_camera cfg d o src conf) w) = username w
  /\ page (exec (run_camera cfg d o src conf) w) = page w
  /\ exists new,
       alerts (exec (run_camera cfg d o src conf) w) = alerts w ++ new
       /\ forall a, a ∈ new -> a_username a = username w.
Proof. apply run_camera_log. Qed.

(** X3. If every row of [alerts] points to a file that exists, this is still
    so after a run of [run_camera]: a row is only written together with its
    snapshot, and no file is ever removed. *)
Theorem snapshots_stay_present cfg d o src conf w :
  snapshots_present w ->
  snapshots_present (exec (run_camera cfg d o src conf) w).
Proof.
  apply (run_camera_closed
           (fun w w' => snapshots_present w -> snapshots_present w')).
  split; [|split; [|split; [|split]]]; try done.
  - intros w1 w2 w3 H12 H23 H1. auto.
  - intros cfg' e text fr w1 H1. unfold exec. gate_cases; [done|].
    unfold snapshots_present. simpl.
    intros a [Ha| ->%list_elem_of_singleton]%elem_of_app.
    + destruct (decide (snapshot_name e = a_image_path a)) as [E|E].
      * rewrite E, lookup_insert_eq. eauto.
      * rewrite lookup_insert_ne by done. by apply H1.
    + simpl. rewrite lookup_insert_eq. eauto.
Qed.

Lemma snapshots_stay_present_witness :
  snapshots_present w_first
  /\ snapshots_present
       (exec (run_camera cfg0 busy_detectors elements_order two_frames (5 # 10))
             w_first).
Proof.
  assert (H : snapshots_present w_first).
  { assert (E : alerts w_first = [alert_record env_first "Fire Detected" w0])
      by by vm_compute.
    intros a Ha. rewrite E in Ha.
    apply list_elem_of_singleton in Ha as ->. exists []. by vm_compute. }
  split; [exact H|].
  exact (snapshots_stay_present cfg0 busy_detectors elements_order two_frames
           (5 # 10) w_first H).
Defined.

Lemma frame_loop_all_suppressed cfg d o conf frames w :
  (forall fr e, (fr, e) ∈ frames ->
     (clock_now e - last_alert_time w < 20)%Q) ->
  alerts (exec (frame_loop cfg d o conf frames) w) = alerts w
  /\ last_alert_time (exec (frame_loop cfg d o conf frames) w)
     = last_alert_time w.
Proof.
  revert w. induction frames as [|[fr e] rest IH]; intros w Hall; [done|].
  assert (Hhead : (clock_now e - last_alert_time w < 20)%Q).
  { apply (Hall fr e), elem_of_cons. by left. }
  unfold exec. simpl. unfold bind.
  destruct (frame_body_outcomes cfg d o conf fr e w)
    as [[err ->]|[[evs ->]|(text & w' & Hpass & _)]]; [done| |lra].
  apply (IH (emits evs w)). intros fr' e' Hin.
  apply (Hall fr' e'), elem_of_cons. by right.
Qed.

(** X4. Frames whose clock readings all lie within one stretch shorter than
    the cooldown, from [t] to less than [t + 20], add at most one row to
    [alerts], whatever is detected on them. *)
Theorem one_alert_per_window cfg d o src conf t w :
  (forall fr e, (fr, e) ∈ src_frames src ->
     (t <= clock_now e)%Q /\ (clock_now e < t + 20)%Q) ->
  alerts (exec (run_camera cfg d o src conf) w) = alerts w
  \/ exists row, alerts (exec (run_camera cfg d o src conf) w)
                 = alerts w ++ [row].
Proof.
  intros Hwin.
  assert (Hloop : forall frames w,
            (forall fr e, (fr, e) ∈ frames ->
               (t <= clock_now e)%Q /\ (clock_now e < t + 20)%Q) ->
            alerts (exec (frame_loop cfg d o conf frames) w) = alerts w
            \/ exists row, alerts (exec (frame_loop cfg d o conf frames) w)
                           = alerts w ++ [row]).
  { clear. induction frames as [|[fr e] rest IH]; intros w Hall; [by left|].
    assert (Hrest : forall fr' e', (fr', e') ∈ rest ->
              (t <= clock_now e')%Q /\ (clock_now e' < t + 20)%Q).
    { intros fr' e' Hin. apply (Hall fr' e'), elem_of_cons. by right. }
    assert (Hhead : (t <= clock_now e)%Q).
    { apply (Hall fr e), elem_of_cons. by left. }
    unfold exec. simpl. unfold bind.
    destruct (frame_body_outcomes cfg d o conf fr e w)
      as [[err ->]|[[evs ->]|(text & w' & Hpass & -> & Hrow & Hlast)]].
    - by left.
    - apply (IH (emits evs w) Hrest).
    - right. exists (alert_record e text w). rewrite <- Hrow.
      apply frame_loop_all_suppressed. intros fr' e' Hin.
      rewrite Hlast. destruct (Hrest fr' e' Hin). lra. }
  unfold exec, run_camera, bind, modify. simpl.
  destruct (src_opens src); [|by left].
  specialize (Hloop (src_frames src) (set_cap_held true w) Hwin).
  unfold exec in Hloop.
  by destruct (frame_loop cfg d o conf (src_frames src) (set_cap_held true w))
    as [[[]|err] w1].
Qed.

Lemma one_alert_per_window_witness :
  (forall fr e, (fr, e) ∈ src_frames two_frames ->
     (t0 <= clock_now e)%Q /\ (clock_now e < t0 + 20)%Q)
  /\ (alerts (exec (run_camera cfg0 busy_detectors elements_order two_frames
                      (5 # 10)) w0) = alerts w0
      \/ exists row,
           alerts (exec (run_camera cfg0 busy_detectors elements_order
                           two_frames (5 # 10)) w0) = alerts w0 ++ [row]).
Proof.
  assert (H : forall fr e, (fr, e) ∈ src_frames two_frames ->
                (t0 <= clock_now e)%Q /\ (clock_now e < t0 + 20)%Q).
  { intros fr e Hin. unfold two_frames in Hin. simpl in Hin.
    apply elem_of_cons in Hin as [[= _ ->]|Hin]; [by vm_compute|].
    apply list_elem_of_singleton in Hin as [= _ ->]. by vm_compute. }
  split; [exact H|].
  exact (one_alert_per_window cfg0 busy_detectors elements_order two_frames
           (5 # 10) t0 w0 H).
Defined.

(** X5. A source that does not open, or opens and has no frame, makes
    [run_camera] return at once: nothing is shown, written or sent, and the
    handle is not held. *)
Theorem run_camera_no_frames cfg d o src conf w :
  src_opens src = false \/ src_frames src = [] ->
  run_camera cfg d o src conf w = (Ok tt, set_cap_held false w).
Proof.
  unfold run_camera, bind, modify. simpl.
  intros [-> | Hnil]; [done|]. rewrite Hnil. by destruct (src_opens src).
Qed.

Lemma run_camera_no_frames_witness :
  (src_opens {| src_opens := false; src_frames := src_frames two_frames |}
   = false
   \/ src_frames {| src_opens := false; src_frames := src_frames two_frames |}
      = [])
  /\ run_camera cfg0 busy_detectors elements_order
       {| src_opens := false; src_frames := src_frames two_frames |} (5 # 10)
       w_first
     = (Ok tt, set_cap_held false w_first).
Proof.
  split; [by left|].
  apply (run_camera_no_frames cfg0 busy_detectors elements_order
           {| src_opens := false; src_frames := src_frames two_frames |}).
  by left.
Defined.

(** X6. The frame on which a detector raises is the last one looked at: the
    run ends by an error, and the frames behind it change nothing, whatever
    they hold. *)
Theorem run_camera_stops_at_failure cfg d o conf opens before fr e behind w :
  (exists err, model d fr conf = Raised err)
  \/ (exists err, fire_model d fr conf = Raised err) ->
  run_camera cfg d o
    {| src_opens := opens; src_frames := before ++ (fr, e) :: behind |} conf w
  = run_camera cfg d o
      {| src_opens := opens; src_frames := before ++ [(fr, e)] |} conf w
  /\ (opens = true ->
      exists err,
        outcome (run_camera cfg d o
                   {| src_opens := opens;
                      src_frames := before ++ (fr, e) :: behind |} conf) w
        = Raised err).
Proof.
  intros Hfail.
  destruct (frame_body_raises cfg d o conf fr e Hfail) as [err Herr].
  assert (Hloop : forall tail w1,
            exists err' w2,
              frame_loop cfg d o conf (before ++ (fr, e) :: tail) w1
              = (Raised err', w2)
              /\ frame_loop cfg d o conf (before ++ [(fr, e)]) w1
                 = (Raised err', w2)).
  { intros tail w1. rewrite !frame_loop_app. unfold bind. simpl. unfold bind.
    destruct (frame_loop cfg d o conf before w1) as [[[]|err1] w2].
    - rewrite Herr. eauto.
    - eauto. }
  unfold outcome, run_camera, bind, modify. simpl.
  destruct opens; [|by split].
  destruct (Hloop behind (set_cap_held true w)) as (err' & w2 & -> & ->).
  split; [done|]. eauto.
Qed.

Lemma run_camera_stops_at_failure_witness :
  ((exists err, model failing_detectors [] (5 # 10) = Raised err)
   \/ (exists err, fire_model failing_detectors [] (5 # 10) = Raised err))
  /\ run_camera cfg0 failing_detectors elements_order
       {| src_opens := true;
          src_frames := [] ++ ([], env_first) :: src_frames two_frames |}
       (5 # 10) w0
     = run_camera cfg0 failing_detectors elements_order
         {| src_opens := true; src_frames := [] ++ [([], env_first)] |}
         (5 # 10) w0.
Proof.
  assert (H : (exists err, model failing_detectors [] (5 # 10) = Raised err)
              \/ (exists err,
                    fire_model failing_detectors [] (5 # 10) = Raised err))
    by (left; by eexists).
  split; [exact H|].
  exact (proj1 (run_camera_stops_at_failure cfg0 failing_detectors
                  elements_order (5 # 10) true [] [] env_first
                  (src_frames two_frames) w0 H)).
Defined.

(** X7. Watching a video in two parts is watching it in one go: running
    [run_camera] on the first frames and then on the rest leaves the same
    world, with the same outcome, as one run on all of them. *)
Theorem run_camera_in_two_parts cfg d o conf first rest w :
  bind (run_camera cfg d o {| src_opens := true; src_frames := first |} conf)
       (fun _ =>
          run_camera cfg d o {| src_opens := true; src_frames := rest |} conf)
       w
  = run_camera cfg d o
      {| src_opens := true; src_frames := first ++ rest |} conf w.
Proof.
  unfold run_camera, bind, modify. simpl. rewrite frame_loop_app.
  unfold bind.
  pose proof (keeps_cap_frame_loop cfg d o conf first (set_cap_held true w))
    as Hcap.
  unfold exec in Hcap. simpl in Hcap.
  destruct (frame_loop cfg d o conf first (set_cap_held true w))
    as [[[]|err] w1]; [|done].
  simpl in Hcap.
  assert (E : set_cap_held true (set_cap_held false w1) = w1).
  { destruct w1; simpl in *. by rewrite Hcap. }
  by rewrite E.
Qed.

(** ** Notifications *)

(** X8. When the session's username has no row in [users], an alert that
    passes the cooldown is still logged with its snapshot, but neither
    channel does anything: nothing is sent and nothing is printed. *)
Theorem alert_without_contact cfg e text fr w :
  select_user (username w) w = None ->
  (20 <= clock_now e - last_alert_time w)%Q ->
  send_email cfg e "Smart Alert" text (Some (snapshot_name e)) w = (Ok tt, w)
  /\ send_sms cfg e text w = (Ok tt, w)
  /\ trace (exec (trigger_alert cfg e text fr) w) = trace w
  /\ alerts (exec (trigger_alert cfg e text fr) w)
     = alerts w ++ [alert_record e text w]
  /\ files (exec (trigger_alert cfg e text fr) w) !! snapshot_name e = Some fr.
Proof.
  intros Hnone Hpass. apply Qlt_bool_false in Hpass.
  split; [|split].
  - rewrite send_email_spec. unfold email_events. by rewrite Hnone, emits_nil.
  - rewrite send_sms_spec. unfold sms_events. by rewrite Hnone, emits_nil.
  - unfold exec. rewrite trigger_alert_pass by done. simpl.
    unfold email_events, sms_events.
    change (select_user (username (imwrite (snapshot_name e) fr w))
              (imwrite (snapshot_name e) fr w))
      with (select_user (username w) w).
    rewrite Hnone. simpl. rewrite app_nil_r.
    split; [done|]. split; [done|]. apply lookup_insert_eq.
Qed.

Lemma alert_without_contact_witness :
  (select_user (username w_nobody) w_nobody = None
   /\ (20 <= clock_now env_first - last_alert_time w_nobody)%Q)
  /\ trace (exec (trigger_alert cfg0 env_first "Fire Detected" []) w_nobody)
     = trace w_nobody.
Proof.
  assert (H1 : select_user (username w_nobody) w_nobody = None) by done.
  assert (H2 : (20 <= clock_now env_first - last_alert_time w_nobody)%Q)
    by by vm_compute.
  split; [done|].
  exact (proj1 (proj2 (proj2
           (alert_without_contact cfg0 env_first "Fire Detected" [] w_nobody
              H1 H2)))).
Defined.

(** X9. When an alert goes out for a user with a row in [users] and the SMTP
    session does not fail, the mail on the trace goes from the configured
    sender to the address of that row, with subject "Smart Alert", the alert
    text as body and, attached, the very frame just saved as snapshot. *)
Theorem mail_carries_snapshot cfg e text fr w row :
  select_user (username w) w = Some row ->
  smtp_fault e = None ->
  (20 <= clock_now e - last_alert_time w)%Q ->
  SmtpSendmail (SENDER_EMAIL cfg) (u_email row) "Smart Alert" text (Some fr)
  ∈ trace (exec (trigger_alert cfg e text fr) w).
Proof.
  intros Hrow Hsmtp Hpass. apply Qlt_bool_false in Hpass.
  unfold exec. rewrite trigger_alert_pass by done. simpl.
  unfold email_events.
  change (select_user (username (imwrite (snapshot_name e) fr w))
            (imwrite (snapshot_name e) fr w))
    with (select_user (username w) w).
  rewrite Hrow, Hsmtp. simpl. rewrite lookup_insert_eq.
  apply elem_of_app. right. apply elem_of_cons. right.
  apply elem_of_cons. by left.
Qed.

Lemma mail_carries_snapshot_witness :
  (select_user (username w0) w0 = Some alice
   /\ smtp_fault env_first = None
   /\ (20 <= clock_now env_first - last_alert_time w0)%Q)
  /\ SmtpSendmail "monitor@example.org" "alice@example.org" "Smart Alert"
       "Fire Detected" (Some [Byte.x01])
     ∈ trace (exec (trigger_alert cfg0 env_first "Fire Detected" [Byte.x01]) w0).
Proof.
  assert (H : (20 <= clock_now env_first - last_alert_time w0)%Q)
    by by vm_compute.
  split; [done|].
  exact (mail_carries_snapshot cfg0 env_first "Fire Detected" [Byte.x01] w0
           alice eq_refl eq_refl H).
Defined.

(** ** More on the detection adapter *)

Lemma Qle_bool_trans_l (a b c : Q) :
  (a <= b)%Q -> Qle_bool b c = true -> Qle_bool a c = true.
Proof. rewrite !Qle_bool_iff. apply Qle_trans. Qed.

(** X10. Raising the threshold never adds a label: whatever is returned at
    threshold [hi] is also returned at any lower threshold [lo], under any
    iteration order. *)
Theorem detect_events_antitone o o' results fire_results lo hi x :
  (lo <= hi)%Q ->
  x ∈ detect_events o results fire_results hi ->
  x ∈ detect_events o' results fire_results lo.
Proof.
  intros Hle. rewrite !detect_events_elem, !collected_counts, !elem_of_app,
    !elem_of_replicate, !some_hit.
  intros [[-> (b & Hb & Hhit)]|[-> (b & Hb & Hhit)]]; [left|right];
    (split; [done|]); exists b; (split; [done|]).
  - unfold person_hit in *. apply andb_true_iff in Hhit as [H1 H2].
    by rewrite (Qle_bool_trans_l lo hi), H2.
  - unfold fire_hit in *. by apply (Qle_bool_trans_l lo hi).
Qed.

Lemma detect_events_antitone_witness :
  ((3 # 10 <= 5 # 10)%Q
   /\ "Fire Detected" ∈ detect_events elements_order one_person one_fire (5 # 10))
  /\ "Fire Detected" ∈ detect_events reverse_order one_person one_fire (3 # 10).
Proof.
  assert (H1 : (3 # 10 <= 5 # 10)%Q) by by vm_compute.
  assert (H2 : "Fire Detected"
               ∈ detect_events elements_order one_person one_fire (5 # 10)).
  { assert (E : detect_events elements_order one_person one_fire (5 # 10)
                = ["Fire Detected"; "Person Detected"]) by by vm_compute.
    rewrite E. left. }
  split; [done|].
  exact (detect_events_antitone elements_order reverse_order one_person
           one_fire (3 # 10) (5 # 10) "Fire Detected" H1 H2).
Defined.

(** X11. [detect_events] returns the empty list exactly when no box of the
    general model is a person at or above the threshold and no box of the
    fire model is at or above it. *)
Theorem detect_events_empty_iff o results fire_results conf :
  detect_events o results fire_results conf = []
  <-> (forall b, b ∈ boxes results ->
         ~ ((conf <= box_conf b)%Q /\ box_cls b = 0%Z))
      /\ (forall b, b ∈ boxes fire_results -> ~ (conf <= box_conf b)%Q).
Proof.
  assert (Hnil : detect_events o results fire_results conf = []
                 <-> collected results fire_results conf = []).
  { split; intros H.
    - destruct (collected results fire_results conf) as [|x l] eqn:E; [done|].
      assert (Hx : x ∈ detect_events o results fire_results conf).
      { apply detect_events_elem. rewrite E. left. }
      rewrite H in Hx. by apply elem_of_nil in Hx.
    - destruct (detect_events o results fire_results conf) as [|x l] eqn:E;
        [done|].
      assert (Hx : x ∈ collected results fire_results conf).
      { apply (detect_events_elem o). rewrite E. left. }
      rewrite H in Hx. by apply elem_of_nil in Hx. }
  rewrite Hnil, collected_counts. split.
  - intros [Hp Hf]%app_eq_nil.
    apply (f_equal length) in Hp, Hf. rewrite length_replicate in Hp, Hf.
    simpl in Hp, Hf. split; intros b Hb Hhit.
    + apply person_hit_iff in Hhit.
      assert (length (List.filter (person_hit conf) (boxes results)) <> 0)
        by (apply some_hit; eauto). lia.
    + apply fire_hit_iff in Hhit.
      assert (length (List.filter (fire_hit conf) (boxes fire_results)) <> 0)
        by (apply some_hit; eauto). lia.
  - intros [Hp Hf].
    assert (Ep : length (List.filter (person_hit conf) (boxes results)) = 0).
    { destruct (decide (length (List.filter (person_hit conf) (boxes results))
                        = 0)) as [E|E]; [done|].
      apply some_hit in E as (b & Hb & Hhit). apply person_hit_iff in Hhit.
      by destruct (Hp b Hb). }
    assert (Ef : length (List.filter (fire_hit conf) (boxes fire_results)) = 0).
    { destruct (decide (length (List.filter (fire_hit conf)
                                  (boxes fire_results)) = 0)) as [E|E]; [done|].
      apply some_hit in E as (b & Hb & Hhit). apply fire_hit_iff in Hhit.
      by destruct (Hf b Hb). }
    by rewrite Ep, Ef.
Qed.

Lemma length_filter_Permutation {A} (f : A -> bool) (l k : list A) :
  l ≡ₚ k -> length (List.filter f l) = length (List.filter f k).
Proof.
  induction 1 as [|x l k _ IH|x y l|l k m _ IH1 _ IH2]; simpl.
  - done.
  - destruct (f x); simpl; by rewrite IH.
  - by destruct (f x), (f y).
  - by rewrite IH1.
Qed.

(** X12. The order in which a detector lists its boxes does not matter, nor
    does the iteration order of the set: with the boxes of both detectors
    rearranged, the same labels are returned, up to their order. *)
Theorem detect_events_box_order o o' r1 r2 f1 f2 conf :
  boxes r1 ≡ₚ boxes r2 ->
  boxes f1 ≡ₚ boxes f2 ->
  detect_events o r1 f1 conf ≡ₚ detect_events o' r2 f2 conf.
Proof.
  intros Hr Hf. unfold detect_events.
  rewrite (list_of_set_perm o), (list_of_set_perm o'), !collected_counts.
  by rewrite (length_filter_Permutation _ _ _ Hr),
    (length_filter_Permutation _ _ _ Hf).
Qed.

Lemma detect_events_box_order_witness :
  (boxes two_persons ≡ₚ boxes {| boxes := reverse (boxes two_persons);
                                 plot := [] |}
   /\ boxes one_fire ≡ₚ boxes one_fire)
  /\ detect_events elements_order two_persons one_fire (5 # 10)
     ≡ₚ detect_events reverse_order
          {| boxes := reverse (boxes two_persons); plot := [] |} one_fire
          (5 # 10).
Proof.
  assert (H1 : boxes two_persons
               ≡ₚ boxes {| boxes := reverse (boxes two_persons); plot := [] |})
    by (simpl; by rewrite reverse_Permutation).
  assert (H2 : boxes one_fire ≡ₚ boxes one_fire) by done.
  split; [done|].
  exact (detect_events_box_order elements_order reverse_order two_persons
           {| boxes := reverse (boxes two_persons); plot := [] |}
           one_fire one_fire (5 # 10) H1 H2).
Defined.

(** ** Credentials *)

Lemma find_app {A} (f : A -> bool) (l k : list A) :
  find f (l ++ k) = match find f l with Some x => Some x | None => find f k end.
Proof. induction l as [|a l IH]; simpl; [done|]. by destruct (f a). Qed.

Lemma find_none_iff {A} (f : A -> bool) (l : list A) :
  find f l = None <-> forall x, x ∈ l -> f x = false.
Proof.
  induction l as [|a l IH]; simpl.
  - split; [|done]. intros _ x Hx. by apply elem_of_nil in Hx.
  - destruct (f a) eqn:Ha.
    + split; [done|]. intros H. rewrite (H a) in Ha; [done|left].
    + rewrite IH. split.
      * intros H x [->|Hx]%elem_of_cons; auto.
      * intros H x Hx. apply H. by right.
Qed.

Lemma find_some_elem {A} (f : A -> bool) (l : list A) (x : A) :
  find f l = Some x -> x ∈ l /\ f x = true.
Proof. intros [H1 H2]%find_some. split; [by apply list_elem_of_In|done]. Qed.

Lemma rows_named_zero u w :
  rows_named u w = 0 <-> forall r, r ∈ users w -> u_username r <> u.
Proof.
  unfold rows_named. induction (users w) as [|a l IH].
  - split; [|done]. intros _ r Hr. by apply elem_of_nil in Hr.
  - rewrite filter_cons. destruct (decide (u_username a = u)) as [E|E]; simpl.
    + split; [done|]. intros H. destruct (H a); [left|done].
    + rewrite IH. split.
      * intros H r [->|Hr]%elem_of_cons; auto.
      * intros H r Hr. apply H. by right.
Qed.

Lemma register_page_users h name email phone gender user password w :
  users (exec (register_page h name email phone gender user password) w)
  = if decide (rows_named user w = 0)
    then users w ++ [{| u_id := users_seq w + 1; u_name := name;
                        u_email := email; u_phone := phone;
                        u_gender := gender; u_username := user;
                        u_password := h password;
                        u_role := "user"; u_status := "active" |}]
    else users w.
Proof.
  unfold exec. destruct (decide (rows_named user w = 0)) as [E|E].
  - by rewrite register_page_fresh.
  - by rewrite register_page_taken.
Qed.

(** What a registration leaves alone. *)
Lemma register_page_frame h name email phone gender user password w :
  alerts (exec (register_page h name email phone gender user password) w)
  = alerts w
  /\ files (exec (register_page h name email phone gender user password) w)
     = files w
  /\ username (exec (register_page h name email phone gender user password) w)
     = username w
  /\ last_alert_time
       (exec (register_page h name email phone gender user password) w)
     = last_alert_time w
  /\ (page (exec (register_page h name email phone gender user password) w)
      = "login"
      \/ page (exec (register_page h name email phone gender user password) w)
         = page w).
Proof.
  unfold exec. destruct (decide (rows_named user w = 0)) as [E|E].
  - rewrite register_page_fresh by done. simpl. repeat split; by left.
  - rewrite register_page_taken by done. simpl. repeat split; by right.
Qed.

(** X13. Whoever registers under a free username can log in with the same
    password at once: [check_login] finds the row just written, and with a
    password of another digest it finds nothing. *)
Theorem register_then_login h name email phone gender user password w :
  rows_named user w = 0 ->
  check_login h user password
    (exec (register_page h name email phone gender user password) w)
  = Some {| u_id := users_seq w + 1; u_name := name; u_email := email;
            u_phone := phone; u_gender := gender; u_username := user;
            u_password := h password;
            u_role := "user"; u_status := "active" |}
  /\ forall other, h other <> h password ->
       check_login h user other
         (exec (register_page h name email phone gender user password) w)
       = None.
Proof.
  intros Hfresh. unfold check_login.
  rewrite register_page_users, decide_True by done.
  assert (Hnone : forall p,
            find (fun r => bool_decide (u_username r = user)
                           && bool_decide (u_password r = h p)) (users w)
            = None).
  { intros p. apply find_none_iff. intros r Hr.
    apply rows_named_zero with (r := r) in Hfresh; [|done].
    by rewrite bool_decide_eq_false_2. }
  split.
  - rewrite find_app, Hnone. simpl. by rewrite !bool_decide_eq_true_2.
  - intros other Hother. rewrite find_app, Hnone. simpl.
    rewrite bool_decide_eq_true_2 by done.
    rewrite bool_decide_eq_false_2; [done|]. by intros E.
Qed.

Lemma register_then_login_witness :
  rows_named "alice" w_nobody = 0
  /\ check_login toy_digest "alice" "s3cret"
       (exec (register_page toy_digest "Alice" "alice@example.org" "5550100"
                "Female" "alice" "s3cret") w_nobody)
     = Some {| u_id := 1; u_name := "Alice"; u_email := "alice@example.org";
               u_phone := "5550100"; u_gender := "Female";
               u_username := "alice"; u_password := toy_digest "s3cret";
               u_role := "user"; u_status := "active" |}.
Proof.
  split; [reflexivity|].
  exact (proj1 (register_then_login toy_digest "Alice" "alice@example.org"
                  "5550100" "Female" "alice" "s3cret" w_nobody eq_refl)).
Defined.

(** X14. [check_login] succeeds exactly when some row of [users] has the
    given username and the digest of the given password, and the row it
    returns is such a row; the password itself is never compared. *)
Theorem check_login_iff h u p w :
  (is_Some (check_login h u p w)
   <-> exists r, r ∈ users w /\ u_username r = u /\ u_password r = h p)
  /\ (forall r, check_login h u p w = Some r ->
        r ∈ users w /\ u_username r = u /\ u_password r = h p).
Proof.
  assert (Hsome : forall r, check_login h u p w = Some r ->
                    r ∈ users w /\ u_username r = u /\ u_password r = h p).
  { intros r [Hr Hf]%find_some_elem.
    apply andb_true_iff in Hf as [H1%bool_decide_eq_true H2%bool_decide_eq_true].
    done. }
  split; [|exact Hsome]. split.
  - intros [r Hr]. exists r. by apply Hsome.
  - intros (r & Hr & Hu & Hp).
    destruct (check_login h u p w) as [r'|] eqn:E; [done|].
    unfold check_login in E. rewrite find_none_iff in E.
    specialize (E r Hr). simpl in E.
    by rewrite !bool_decide_eq_true_2 in E.
Qed.

(** X15. Registration keeps the usernames of table [users] distinct. *)
Theorem register_keeps_usernames_unique h name email phone gender user
    password w :
  unique_usernames w ->
  unique_usernames
    (exec (register_page h name email phone gender user password) w).
Proof.
  unfold unique_usernames. intros Hnd. rewrite register_page_users.
  destruct (decide (rows_named user w = 0)) as [E|E]; [|done].
  rewrite fmap_app. apply NoDup_app. split; [done|]. split.
  - intros x Hx [->|[]%elem_of_nil]%elem_of_cons.
    apply list_elem_of_fmap in Hx as (r & Hu & Hr).
    by apply (rows_named_zero user w) with (r := r) in E.
  - apply NoDup_singleton.
Qed.

Lemma register_keeps_usernames_unique_witness :
  unique_usernames w0
  /\ unique_usernames
       (exec (register_page toy_digest "Bob" "bob@example.org" "5550122"
                "Male" "bob" "pw") w0).
Proof.
  assert (H : unique_usernames w0) by apply NoDup_singleton.
  split; [exact H|].
  exact (register_keeps_usernames_unique toy_digest "Bob" "bob@example.org"
           "5550122" "Male" "bob" "pw" w0 H).
Defined.

(** X16. With distinct usernames, the contact row the channels look up for
    a username is the one row of [users] under that username. *)
Theorem select_user_unique u r w :
  unique_usernames w ->
  (select_user u w = Some r <-> r ∈ users w /\ u_username r = u).
Proof.
  unfold unique_usernames, select_user. intros Hnd. split.
  - intros [Hr Hf%bool_decide_eq_true]%find_some_elem. done.
  - intros [Hr Hu]. induction (users w) as [|a l IH]; simpl in *.
    + by apply elem_of_nil in Hr.
    + apply NoDup_cons in Hnd as [Ha Hnd]. unfold has_username at 1.
      apply elem_of_cons in Hr as [->|Hr].
      * by rewrite bool_decide_eq_true_2.
      * rewrite bool_decide_eq_false_2; [by apply IH|].
        intros E. apply Ha. apply list_elem_of_fmap. exists r.
        split; [congruence|done].
Qed.

Lemma select_user_unique_witness :
  unique_usernames w0
  /\ (select_user "alice" w0 = Some alice
      <-> alice ∈ users w0 /\ u_username alice = "alice").
Proof.
  assert (H : unique_usernames w0) by apply NoDup_singleton.
  split; [exact H|].
  exact (select_user_unique "alice" alice w0 H).
Defined.

(** X17. A registration, accepted or not, takes nobody's login away: a
    username and password that [check_login] accepted before are accepted
    after, with the same row. *)
Theorem register_keeps_logins h name email phone gender user password u p r w :
  check_login h u p w = Some r ->
  check_login h u p
    (exec (register_page h name email phone gender user password) w)
  = Some r.
Proof.
  unfold check_login. intros H. rewrite register_page_users.
  destruct (decide (rows_named user w = 0)); [|done].
  by rewrite find_app, H.
Qed.

Lemma register_keeps_logins_witness :
  check_login toy_digest "alice" "pw"
    {| users := [{| u_id := 1; u_name := "Alice";
                    u_email := "alice@example.org"; u_phone := "5550100";
                    u_gender := "Female"; u_username := "alice";
                    u_password := toy_digest "pw";
                    u_role := "user"; u_status := "active" |}];
       users_seq := 1; alerts := []; alerts_seq := 0; files := ∅;
       username := ""; last_alert_time := 0; page := "register";
       cap_held := false; trace := [] |}
  = Some {| u_id := 1; u_name := "Alice"; u_email := "alice@example.org";
            u_phone := "5550100"; u_gender := "Female"; u_username := "alice";
            u_password := toy_digest "pw";
            u_role := "user"; u_status := "active" |}
  /\ check_login toy_digest "alice" "pw"
       (exec (register_page toy_digest "Bob" "bob@example.org" "5550122"
                "Male" "bob" "pw2")
          {| users := [{| u_id := 1; u_name := "Alice";
                          u_email := "alice@example.org"; u_phone := "5550100";
                          u_gender := "Female"; u_username := "alice";
                          u_password := toy_digest "pw";
                          u_role := "user"; u_status := "active" |}];
             users_seq := 1; alerts := []; alerts_seq := 0; files := ∅;
             username := ""; last_alert_time := 0; page := "register";
             cap_held := false; trace := [] |})
     = Some {| u_id := 1; u_name := "Alice"; u_email := "alice@example.org";
               u_phone := "5550100"; u_gender := "Female";
               u_username := "alice"; u_password := toy_digest "pw";
               u_role := "user"; u_status := "active" |}.
Proof.
  split; [reflexivity|].
  apply (register_keeps_logins toy_digest "Bob" "bob@example.org" "5550122"
           "Male" "bob" "pw2" "alice" "pw").
  reflexivity.
Defined.

(** ** The session over several runs *)

Lemma dashboard_after cfg d o c s :
  state (dashboard cfg d o c s).2
  = match c with
    | Logout => set_page "login" (state s)
    | Start src conf => exec (run_camera cfg d o src conf) (state s)
    | Upload data clock play conf =>
        let w1 := write_file ("temp_" +:+ pretty (int_of_float clock) +:+ ".mp4")
                             data (state s) in
        match play with
        | Some src => exec (run_camera cfg d o src conf) w1
        | None => w1
        end
    | _ => state s
    end
  /\ logged_in (dashboard cfg d o c s).2
     = match c with Logout => false | _ => logged_in s end.
Proof.
  unfold exec. destruct c as [| | | | |src conf|data clock [src|] conf]; simpl;
    try done.
  - by destruct (run_camera cfg d o src conf (state s)).
  - by destruct (run_camera cfg d o src conf _).
Qed.

Lemma register_view_after h c s :
  state (register_view h c s).2
  = match c with
    | Submit name email phone gender user password =>
        exec (register_page h name email phone gender user password) (state s)
    | _ => state s
    end
  /\ logged_in (register_view h c s).2 = logged_in s.
Proof.
  unfold exec. destruct c; simpl; try done.
  by destruct (register_page h name email phone gender user password (state s)).
Qed.

Lemma router_session_ok h cfg d o c s :
  session_ok s -> session_ok (router h cfg d o c s).2.
Proof.
  intros [Huser Hrefs]. unfold router.
  destruct (bool_decide (page (state s) = "login")).
  { destruct c as [|u p| | | | |]; simpl; try done.
    destruct (check_login h u p (state s)) as [user|] eqn:E; simpl; [|done].
    split; [|done]. intros _. exists user. split; [|done].
    by apply find_some_elem in E as [? _]. }
  destruct (bool_decide (page (state s) = "register")).
  { destruct (register_view_after h c s) as [Hst Hlog].
    split.
    - rewrite Hlog, Hst. intros Hin. destruct (Huser Hin) as (r & Hr & Hu).
      destruct c; try by eauto.
      destruct (register_page_frame h name email phone gender user password
                  (state s)) as (_ & _ & Hn & _).
      rewrite Hn, register_page_users. exists r. split; [|done].
      destruct (decide _); [apply elem_of_app; by left|done].
    - unfold alerts_reference_users. rewrite Hst. destruct c; try done.
      destruct (register_page_frame h name email phone gender user password
                  (state s)) as (Ha & _).
      rewrite Ha, register_page_users. intros a Hin.
      destruct (Hrefs a Hin) as (r & Hr & Hu). exists r. split; [|done].
      destruct (decide _); [apply elem_of_app; by left|done]. }
  destruct (logged_in s) eqn:Hlog;
    [|simpl; split; [rewrite Hlog; discriminate|done]].
  destruct (Huser eq_refl) as (r0 & Hr0 & Hu0).
  assert (Hrun : forall src conf w,
            users w = users (state s) -> username w = username (state s) ->
            alerts w = alerts (state s) ->
            (exists r, r ∈ users (exec (run_camera cfg d o src conf) w)
                       /\ u_username r
                          = username (exec (run_camera cfg d o src conf) w))
            /\ alerts_reference_users (exec (run_camera cfg d o src conf) w)).
  { intros src conf w Hu Hn Ha.
    destruct (run_camera_log cfg d o src conf w)
      as (Hu' & _ & Hn' & _ & new & Hnew & Hall).
    split.
    - exists r0. rewrite Hu', Hn', Hu, Hn. done.
    - intros a. rewrite Hnew, Hu', Hu, Ha. intros [Hin|Hin]%elem_of_app.
      + by apply Hrefs.
      + exists r0. split; [done|]. rewrite (Hall a Hin), Hn. done. }
  destruct (dashboard_after cfg d o c s) as [Hst Hl].
  unfold session_ok. rewrite Hst, Hl.
  destruct c as [| | | | |src conf|data clock [src|] conf]; simpl;
    try (split; [eauto|done]).
  - destruct (Hrun src conf (state s)) as [H1 H2]; [done..|].
    split; [intros _; exact H1|exact H2].
  - destruct (Hrun src conf
                (write_file ("temp_" +:+ pretty (int_of_float clock) +:+ ".mp4")
                            data (state s))) as [H1 H2]; [done..|].
    split; [intros _; exact H1|exact H2].
Qed.

Lemma router_page_matches h cfg d o c s :
  page_matches_login s -> page_matches_login (router h cfg d o c s).2.
Proof.
  intros Hs. unfold router, page_matches_login in *.
  destruct (decide (page (state s) = "login")) as [Hp|Hp].
  { rewrite bool_decide_eq_true_2 by done.
    assert (Hl : logged_in s = false).
    { destruct Hs as [[_ H]|[H _]]; [|done]. rewrite Hp in H. discriminate. }
    destruct c as [|u p| | | | |]; simpl; try (right; by auto).
    destruct (check_login h u p (state s)); simpl; [by left|right; by auto]. }
  rewrite bool_decide_eq_false_2 by done.
  destruct (decide (page (state s) = "register")) as [Hr|Hr].
  { rewrite bool_decide_eq_true_2 by done.
    assert (Hl : logged_in s = false).
    { destruct Hs as [[_ H]|[H _]]; [|done]. rewrite Hr in H. discriminate. }
    destruct (register_view_after h c s) as [Hst Hlog]. rewrite Hst, Hlog.
    right. split; [done|]. destruct c; try by auto.
    destruct (register_page_frame h name email phone gender user password
                (state s)) as (_ & _ & _ & _ & [E|E]); rewrite E; auto. }
  rewrite bool_decide_eq_false_2 by done.
  destruct Hs as [[Hl Hd]|[_ [?|?]]]; [|done..]. rewrite Hl.
  destruct (dashboard_after cfg d o c s) as [Hst Hlog]. rewrite Hst, Hlog.
  destruct c as [| | | | |src conf|data clock [src|] conf]; simpl;
    try (left; by auto).
  - right. by auto.
  - left. split; [done|].
    destruct (run_camera_log cfg d o src conf (state s)) as (_ & _ & _ & E & _).
    by rewrite E.
  - left. split; [done|].
    destruct (run_camera_log cfg d o src conf
                (write_file ("temp_" +:+ pretty (int_of_float clock) +:+ ".mp4")
                            data (state s))) as (_ & _ & _ & E & _).
    by rewrite E.
Qed.

(** X18. Over any sequence of interactions, a session in which the logged-in
    username is a row of [users] and every row of [alerts] names a row of
    [users] stays so: alerts are only ever written under a registered
    username. *)
Theorem runs_keep_session_ok h cfg d o cs s :
  session_ok s -> session_ok (runs h cfg d o cs s).
Proof.
  revert s. induction cs as [|c cs IH]; intros s Hs; [done|].
  simpl. apply IH. by apply router_session_ok.
Qed.

(** X19. Over any sequence of interactions, a session is logged in exactly
    while it is on the dashboard, and logged out exactly while it is on the
    login or the registration page, if it started that way. *)
Theorem runs_keep_page_matches h cfg d o cs s :
  page_matches_login s -> page_matches_login (runs h cfg d o cs s).
Proof.
  revert s. induction cs as [|c cs IH]; intros s Hs; [done|].
  simpl. apply IH. by apply router_page_matches.
Qed.

Lemma runs_keep_session_ok_witness :
  session_ok (new_session w_nobody)
  /\ session_ok (runs toy_digest cfg0 busy_detectors elements_order a_visit
                   (new_session w_nobody)).
Proof.
  assert (H : session_ok (new_session w_nobody)).
  { split; [discriminate|]. intros a Ha. by apply elem_of_nil in Ha. }
  split; [exact H|].
  exact (runs_keep_session_ok toy_digest cfg0 busy_detectors elements_order
           a_visit (new_session w_nobody) H).
Defined.

Lemma runs_keep_page_matches_witness :
  page_matches_login (new_session w_nobody)
  /\ page_matches_login (runs toy_digest cfg0 busy_detectors elements_order
                           a_visit (new_session w_nobody)).
Proof.
  assert (H : page_matches_login (new_session w_nobody))
    by (right; split; [done|by left]).
  split; [exact H|].
  exact (runs_keep_page_matches toy_digest cfg0 busy_detectors elements_order
           a_visit (new_session w_nobody) H).
Defined.

(** The visit, run: one user, one alert under her name, the cooldown kept
    after logout. *)
Example a_visit_result :
  let s := runs toy_digest cfg0 busy_detectors elements_order a_visit
             (new_session w_nobody) in
  logged_in s = false
  /\ page (state s) = "login"
  /\ username (state s) = "alice"
  /\ u_username <$> users (state s) = ["alice"]
  /\ a_username <$> alerts (state s) = ["alice"]
  /\ a_alert_type <$> alerts (state s) = ["Fire Detected | Person Detected"]
  /\ last_alert_time (state s) = t0.
Proof. by vm_compute. Qed.

(** X20. A session that is not logged in can do nothing to the alert
    pipeline: whatever the interaction, table [alerts], the files and
    [last_alert_time] stay as they are, and no capture is opened. *)
Theorem logged_out_is_inert h cfg d o c s :
  logged_in s = false ->
  alerts (state (router h cfg d o c s).2) = alerts (state s)
  /\ files (state (router h cfg d o c s).2) = files (state s)
  /\ last_alert_time (state (router h cfg d o c s).2)
     = last_alert_time (state s)
  /\ cap_held (state (router h cfg d o c s).2) = cap_held (state s).
Proof.
  intros Hl. unfold router.
  destruct (bool_decide (page (state s) = "login")).
  { destruct c as [|u p| | | | |]; simpl; try done.
    by destruct (check_login h u p (state s)). }
  destruct (bool_decide (page (state s) = "register")); [|by rewrite Hl].
  destruct (register_view_after h c s) as [-> _].
  destruct c; try done.
  destruct (register_page_frame h name email phone gender user password
              (state s)) as (Ha & Hf & _ & Ht & _).
  repeat split; try done.
  unfold exec. destruct (decide (rows_named user (state s) = 0)).
  - by rewrite register_page_fresh.
  - by rewrite register_page_taken.
Qed.

Lemma logged_out_is_inert_witness :
  logged_in (new_session w_first) = false
  /\ alerts (state (router toy_digest cfg0 busy_detectors elements_order
                      (Start two_frames (5 # 10)) (new_session w_first)).2)
     = alerts (state (new_session w_first)).
Proof.
  split; [reflexivity|].
  exact (proj1 (logged_out_is_inert toy_digest cfg0 busy_detectors
                  elements_order (Start two_frames (5 # 10))
                  (new_session w_first) eq_refl)).
Defined.

(** X21. On the login page, the login button with a username and password
    that [check_login] accepts makes the session logged in, under exactly
    the username typed, on the dashboard; with any other it changes nothing
    but to show "Invalid credentials". *)
Theorem login_outcome h cfg d o u p s :
  page (state s) = "login" ->
  router h cfg d o (Login u p) s
  = match check_login h u p (state s) with
    | Some _ =>
        (Raised RerunException,
         Session (set_page "dashboard" (set_username u (state s))) true)
    | None =>
        (Ok tt,
         Session (emit (UiError "Invalid credentials") (state s)) (logged_in s))
    end.
Proof.
  intros Hp. unfold router. rewrite bool_decide_eq_true_2 by done. simpl.
  destruct (check_login h u p (state s)) as [r|] eqn:E; [|done].
  apply find_some_elem in E as [_ Hf].
  apply andb_true_iff in Hf as [Hu%bool_decide_eq_true _]. by rewrite Hu.
Qed.

Lemma login_outcome_witness :
  page (state (new_session w0)) = "login"
  /\ router toy_digest cfg0 quiet_detectors elements_order
       (Login "alice" "guess") (new_session w0)
     = (Ok tt,
        Session (emit (UiError "Invalid credentials") (state (new_session w0)))
                false).
Proof.
  split; [reflexivity|].
  exact (login_outcome toy_digest cfg0 quiet_detectors elements_order
           "alice" "guess" (new_session w0) eq_refl).
Defined.

Lemma router_keeps_cooldown h cfg d o c s :
  plays c = false ->
  last_alert_time (state (router h cfg d o c s).2) = last_alert_time (state s)
  /\ alerts (state (router h cfg d o c s).2) = alerts (state s).
Proof.
  intros Hc. unfold router.
  destruct (bool_decide (page (state s) = "login")).
  { destruct c as [|u p| | | | |]; simpl; try done.
    by destruct (check_login h u p (state s)). }
  destruct (bool_decide (page (state s) = "register")).
  { destruct (register_view_after h c s) as [-> _]. destruct c; try done.
    destruct (register_page_frame h name email phone gender user password
                (state s)) as (Ha & _ & _ & Ht & _). done. }
  destruct (logged_in s); [|done].
  destruct (dashboard_after cfg d o c s) as [-> _].
  by destruct c as [| | | | |src conf|data clock [src|] conf].
Qed.

(** X22. Only playing a video moves the cooldown: over any interactions
    other than starting a stream or playing an upload (logging out and in
    again among them), [last_alert_time] and table [alerts] stay as they
    are. *)
Theorem cooldown_survives_logout h cfg d o cs s :
  Forall (fun c => plays c = false) cs ->
  last_alert_time (state (runs h cfg d o cs s)) = last_alert_time (state s)
  /\ alerts (state (runs h cfg d o cs s)) = alerts (state s).
Proof.
  intros Hcs. revert s. induction Hcs as [|c cs Hc _ IH]; intros s; [done|].
  simpl. destruct (IH (router h cfg d o c s).2) as [-> ->].
  by apply router_keeps_cooldown.
Qed.

Lemma cooldown_survives_logout_witness :
  Forall (fun c => plays c = false) [Logout; Login "alice" "digest"]
  /\ last_alert_time
       (state (runs (fun p => p) cfg0 busy_detectors elements_order
                 [Logout; Login "alice" "digest"]
                 (Session (set_page "dashboard" w_first) true)))
     = last_alert_time (state (Session (set_page "dashboard" w_first) true)).
Proof.
  assert (H : Forall (fun c => plays c = false) [Logout; Login "alice" "digest"])
    by (repeat constructor).
  split; [exact H|].
  exact (proj1 (cooldown_survives_logout (fun p => p) cfg0 busy_detectors
                  elements_order [Logout; Login "alice" "digest"]
                  (Session (set_page "dashboard" w_first) true) H)).
Defined.

(** ** Files *)

Lemma run_camera_files_frame cfg d o src conf w p :
  not_a_snapshot p ->
  files (exec (run_camera cfg d o src conf) w) !! p = files w !! p.
Proof.
  intros Hp.
  apply (run_camera_closed (fun w w' => files w' !! p = files w !! p)).
  split; [|split; [|split; [|split]]]; try done.
  - intros w1 w2 w3 H12 H23. by rewrite H23.
  - intros cfg' e text fr w1. unfold exec. gate_cases; [done|]. simpl.
    apply lookup_insert_ne. intros E. by apply (Hp e).
Qed.

Lemma temp_not_a_snapshot name : not_a_snapshot ("temp_" +:+ name).
Proof. intros e. unfold snapshot_name. simpl. discriminate. Qed.

(** X23. Apart from the database and its journal files, into which every
    alert is committed, [run_camera] writes no file but snapshots: a file
    that is neither of these nor named [alert_<seconds>.jpg] is after the
    run what it was before, present or not. *)
Theorem run_camera_other_files cfg d o src conf w p :
  ~ database_file p ->
  not_a_snapshot p ->
  files (exec (run_camera cfg d o src conf) w) !! p = files w !! p.
Proof. intros _. apply run_camera_files_frame. Qed.

Lemma run_camera_other_files_witness :
  (~ database_file "temp_1700000000.mp4"
   /\ not_a_snapshot "temp_1700000000.mp4")
  /\ files (exec (run_camera cfg0 busy_detectors elements_order two_frames
                    (5 # 10)) w0) !! "temp_1700000000.mp4"
     = files w0 !! "temp_1700000000.mp4".
Proof.
  assert (Hdb : ~ database_file "temp_1700000000.mp4") by discriminate.
  assert (H : not_a_snapshot "temp_1700000000.mp4")
    by exact (temp_not_a_snapshot "1700000000.mp4").
  split; [done|].
  exact (run_camera_other_files cfg0 busy_detectors elements_order two_frames
           (5 # 10) w0 "temp_1700000000.mp4" Hdb H).
Defined.

(** X24. On the dashboard of a logged-in session, an uploaded video is saved
    as [temp_<unix-seconds>.mp4], and it is still there, byte for byte,
    after it was played, however many alerts the play raised. *)
Theorem upload_is_kept h cfg d o data clock play conf s :
  logged_in s = true ->
  page (state s) <> "login" ->
  page (state s) <> "register" ->
  files (state (router h cfg d o (Upload data clock play conf) s).2)
    !! ("temp_" +:+ pretty (int_of_float clock) +:+ ".mp4")
  = Some data.
Proof.
  intros Hl H1 H2. unfold router.
  rewrite !bool_decide_eq_false_2, Hl by done.
  destruct (dashboard_after cfg d o (Upload data clock play conf) s) as [-> _].
  destruct play as [src|]; simpl.
  - rewrite run_camera_files_frame by apply temp_not_a_snapshot.
    apply lookup_insert_eq.
  - apply lookup_insert_eq.
Qed.

Lemma upload_is_kept_witness :
  (logged_in (Session (set_page "dashboard" w0) true) = true
   /\ page (state (Session (set_page "dashboard" w0) true)) <> "login"
   /\ page (state (Session (set_page "dashboard" w0) true)) <> "register")
  /\ files (state (router toy_digest cfg0 busy_detectors elements_order
                     (Upload [Byte.x01; Byte.x02] t0 (Some two_frames) (5 # 10))
                     (Session (set_page "dashboard" w0) true)).2)
       !! ("temp_" +:+ pretty (int_of_float t0) +:+ ".mp4")
     = Some [Byte.x01; Byte.x02].
Proof.
  assert (H1 : page (state (Session (set_page "dashboard" w0) true)) <> "login")
    by discriminate.
  assert (H2 : page (state (Session (set_page "dashboard" w0) true))
               <> "register") by discriminate.
  split; [done|].
  exact (upload_is_kept toy_digest cfg0 busy_detectors elements_order
           [Byte.x01; Byte.x02] t0 (Some two_frames) (5 # 10)
           (Session (set_page "dashboard" w0) true) eq_refl H1 H2).
Defined.

Lemma string_length_app (s t : string) :
  String.length (s +:+ t) = String.length s + String.length t.
Proof. induction s as [|c s IH]; simpl; [done|]. by rewrite IH. Qed.

Lemma string_app_inj_r (s1 s2 t : string) : s1 +:+ t = s2 +:+ t -> s1 = s2.
Proof.
  revert s2. induction s1 as [|c s1 IH]; intros [|c' s2] H.
  - done.
  - apply (f_equal String.length) in H.
    rewrite !string_length_app in H. simpl in H. lia.
  - apply (f_equal String.length) in H.
    rewrite !string_length_app in H. simpl in H. lia.
  - change (String c (s1 +:+ t) = String c' (s2 +:+ t)) in H.
    injection H as -> H. by rewrite (IH s2 H).
Qed.

Lemma int_of_float_lt (a b : Q) :
  (0 <= a)%Q -> (a + 1 <= b)%Q -> (int_of_float a < int_of_float b)%Z.
Proof.
  intros Ha Hab. rewrite !int_of_float_floor by lra.
  rewrite Zlt_Qlt.
  pose proof (Qfloor_le a) as H1. pose proof (Qlt_floor b) as H2.
  rewrite inject_Z_plus in H2. change (inject_Z 1) with 1%Q in H2. lra.
Qed.

Lemma snapshot_name_inj (e1 e2 : env) :
  snapshot_name e1 = snapshot_name e2 ->
  int_of_float (clock_snap e1) = int_of_float (clock_snap e2).
Proof.
  unfold snapshot_name. intros H.
  apply String.app_inj, string_app_inj_r in H. by apply pretty_Z_inj in H.
Qed.

(** X25. [int(time.time())] in the snapshot name is the whole seconds of the
    clock: for a clock reading that is not negative it is at most the
    reading and less than one second below it. *)
Theorem int_of_float_whole_seconds (x : Q) :
  (0 <= x)%Q ->
  (inject_Z (int_of_float x) <= x)%Q /\ (x < inject_Z (int_of_float x) + 1)%Q.
Proof.
  intros H. rewrite int_of_float_floor by done. split; [apply Qfloor_le|].
  pose proof (Qlt_floor x) as H2. rewrite inject_Z_plus in H2. exact H2.
Qed.

Lemma int_of_float_whole_seconds_witness :
  (0 <= 17000000007 # 10)%Q
  /\ (inject_Z (int_of_float (17000000007 # 10)) <= 17000000007 # 10)%Q
  /\ (17000000007 # 10 < inject_Z (int_of_float (17000000007 # 10)) + 1)%Q.
Proof.
  assert (H : (0 <= 17000000007 # 10)%Q) by by vm_compute.
  split; [exact H|].
  exact (int_of_float_whole_seconds (17000000007 # 10) H).
Defined.

(** X26. Two alerts whose snapshot clocks are at least one second apart get
    different file names, so the later one does not overwrite the earlier:
    after both, each snapshot file holds its own frame. *)
Theorem snapshots_do_not_collide cfg e1 e2 text1 text2 fr1 fr2 w :
  (0 <= clock_snap e1)%Q ->
  (clock_snap e1 + 1 <= clock_snap e2)%Q ->
  (20 <= clock_now e1 - last_alert_time w)%Q ->
  (20 <= clock_now e2 - clock_now e1)%Q ->
  snapshot_name e1 <> snapshot_name e2
  /\ files (exec (trigger_alert cfg e2 text2 fr2)
              (exec (trigger_alert cfg e1 text1 fr1) w))
       !! snapshot_name e1 = Some fr1
  /\ files (exec (trigger_alert cfg e2 text2 fr2)
              (exec (trigger_alert cfg e1 text1 fr1) w))
       !! snapshot_name e2 = Some fr2.
Proof.
  intros H0 H1 Hp1 Hp2.
  assert (Hne : snapshot_name e1 <> snapshot_name e2).
  { intros E%snapshot_name_inj.
    pose proof (int_of_float_lt _ _ H0 H1). lia. }
  split; [exact Hne|].
  apply Qlt_bool_false in Hp1.
  unfold exec at 2 4. rewrite trigger_alert_pass by done. simpl.
  unfold exec. rewrite trigger_alert_pass by (by apply Qlt_bool_false).
  simpl. split.
  - rewrite lookup_insert_ne by done. apply lookup_insert_eq.
  - apply lookup_insert_eq.
Qed.

Lemma snapshots_do_not_collide_witness :
  ((0 <= clock_snap env_first)%Q
   /\ (clock_snap env_first + 1 <= clock_snap env_later)%Q
   /\ (20 <= clock_now env_first - last_alert_time w0)%Q
   /\ (20 <= clock_now env_later - clock_now env_first)%Q)
  /\ snapshot_name env_first <> snapshot_name env_later.
Proof.
  assert (H0 : (0 <= clock_snap env_first)%Q) by by vm_compute.
  assert (H1 : (clock_snap env_first + 1 <= clock_snap env_later)%Q)
    by by vm_compute.
  assert (H2 : (20 <= clock_now env_first - last_alert_time w0)%Q)
    by by vm_compute.
  assert (H3 : (20 <= clock_now env_later - clock_now env_first)%Q)
    by by vm_compute.
  split; [done|].
  exact (proj1 (snapshots_do_not_collide cfg0 env_first env_later
                  "Fire Detected" "Fire Detected" [Byte.x01] [Byte.x02] w0
                  H0 H1 H2 H3)).
Defined.
